(** * wafer-defect-review: table and figure pipelines

    A shallow embedding of [src/build_all_tables.py] and of the cell-level
    conversions of [src/make_figures.py], with the properties the
    specification states about them.

    Modelling conventions.
    - A pandas cell is [NaN] (missing), a number or a text.  Numbers are exact
      rationals kept in lowest terms: float64 rounding, infinities and the
      integer/float dtype distinction are outside the model.
    - Text is a byte string; [upper], [strip] and the character classes of the
      pattern language act on ASCII.
    - A Python exception is a value of [exn]; a call that may raise returns a
      [result].  Side effects (files, stdout) thread a [World]. *)

From Stdlib Require Import QArith Ascii.
From stdpp Require Import base option list strings pretty gmap sorting.

Set Default Proof Using "Type".
Local Open Scope Z_scope.

(** ** Exceptions and results *)

Inductive exn :=
  | KeyError (key : string)
  | ValueError (msg : string)
  | TypeError (msg : string)
  | OSError (msg : string)
  | FileNotFoundError (msg : string)
  | ParserError (msg : string)
  | RenderError (msg : string).

Inductive result (A : Type) :=
  | Ok (a : A)
  | Raise (e : exn).
Arguments Ok {A} a.
Arguments Raise {A} e.

#[global] Instance result_ret : MRet result := λ A a, Ok a.
#[global] Instance result_bind : MBind result := λ A B f m,
  match m with Ok a => f a | Raise e => Raise e end.
#[global] Instance result_fmap : FMap result := λ A B f m,
  match m with Ok a => Ok (f a) | Raise e => Raise e end.

Definition is_Ok {A} (r : result A) : Prop :=
  match r with Ok _ => True | Raise _ => False end.

(** ** Cells *)

Inductive cell :=
  | NaN
  | Num (q : Q)
  | Str (s : string).

#[global] Instance Q_eq_dec : EqDecision Q.
Proof. solve_decision. Defined.
#[global] Instance cell_eq_dec : EqDecision cell.
Proof. solve_decision. Defined.

Abbreviation Series := (list cell).

Definition isna (c : cell) : bool :=
  match c with NaN => true | _ => false end.

(** ** Text helpers (Python [str] methods, ASCII) *)

Definition ascii_in_range (lo hi : N) (a : ascii) : bool :=
  ((lo <=? N_of_ascii a) && (N_of_ascii a <=? hi))%N.







(** [s.endswith(c)] for a one-character suffix. *)
Fixpoint endswith (s : string) (c : ascii) : bool :=
  match s with
  | EmptyString => false
  | String a EmptyString => bool_decide (a = c)
  | String _ s' => endswith s' c
  end.

(** [s[:-1]] *)
Fixpoint drop_last (s : string) : string :=
  match s with
  | EmptyString => EmptyString
  | String _ EmptyString => EmptyString
  | String a s' => String a (drop_last s')
  end.


(** ** Numeric text (the grammar of pandas' string-to-double conversion)

    blanks, an optional sign, digits with an optional ['.'] and more digits
    (at least one digit in all), an optional exponent [e]/[E] with optional
    sign and at least one digit, blanks, end of text. *)

Fixpoint take_digits (acc : N) (n : nat) (s : string) : N * nat * string :=
  match s with
  | String a s' =>
      match Ascii.is_nat a with
      | Some d => take_digits (10 * acc + N.of_nat d)%N (S n) s'
      | None => (acc, n, s)
      end
  | EmptyString => (acc, n, s)
  end.

Fixpoint skip_space (s : string) : string :=
  match s with
  | String a s' => if Ascii.is_space a then skip_space s' else s
  | EmptyString => EmptyString
  end.

Definition take_sign (s : string) : bool * string :=
  match s with
  | String "-" s' => (true, s')
  | String "+" s' => (false, s')
  | _ => (false, s)
  end.

Definition take_exponent (s : string) : Z * string :=
  match s with
  | String c s' =>
      if bool_decide (c = "e"%char) || bool_decide (c = "E"%char) then
        let '(neg, s1) := take_sign s' in
        let '(v, n, s2) := take_digits 0 0 s1 in
        match n with
        | O => (0, s)
        | _ => (if neg then - Z.of_N v else Z.of_N v, s2)
        end
      else (0, s)
  | EmptyString => (0, s)
  end.

(** [m * 10^k] in lowest terms. *)
Definition scale10 (m k : Z) : Q :=
  Qred (if 0 <=? k then (m * 10 ^ k) # 1 else m # Z.to_pos (10 ^ (- k))).

Definition parse_number (s : string) : option Q :=
  let s0 := skip_space s in
  let '(neg, s1) := take_sign s0 in
  let '(ip, ni, s2) := take_digits 0 0 s1 in
  let '(mant, nf, s3) :=
    match s2 with
    | String "." s' => take_digits ip 0 s'
    | _ => (ip, O, s2)
    end in
  match (ni + nf)%nat with
  | O => None
  | _ =>
      let '(ex, s4) := take_exponent s3 in
      match skip_space s4 with
      | EmptyString =>
          let m := if neg then - Z.of_N mant else Z.of_N mant in
          Some (scale10 m (ex - Z.of_nat nf))
      | _ => None
      end
  end.

(** ** [pd.to_numeric] *)

Inductive errors_mode := errors_raise | errors_coerce.

Definition to_numeric_cell (errors : errors_mode) (c : cell) : result cell :=
  match c with
  | NaN => Ok NaN
  | Num q => Ok (Num q)
  | Str s =>
      match parse_number s with
      | Some q => Ok (Num q)
      | None =>
          match errors with
          | errors_coerce => Ok NaN
          | errors_raise => Raise (ValueError ("Unable to parse string " +:+ s))
          end
      end
  end.

Definition to_numeric (errors : errors_mode) (s : Series) : result Series :=
  mapM (to_numeric_cell errors) s.


(** ** Data frames

    A frame has its column names in output order and one dictionary per row
    (the names produced by [pd.read_csv] are unique). *)

Abbreviation Row := (gmap string cell).

Record DataFrame := mkDataFrame {
  columns : list string;
  rows : list Row;
}.

Definition row_get (c : string) (r : Row) : cell := default NaN (r !! c).

(** [df[c]] *)
Definition getitem (df : DataFrame) (c : string) : result Series :=
  if bool_decide (c ∈ columns df) then Ok (row_get c <$> rows df)
  else Raise (KeyError c).

(** [df[c] = s] *)
Definition setitem (df : DataFrame) (c : string) (s : Series) : result DataFrame :=
  if bool_decide (length s = length (rows df)) then
    Ok {| columns := if bool_decide (c ∈ columns df) then columns df
                     else columns df ++ [c];
          rows := zip_with (λ r v, <[c := v]> r) (rows df) s |}
  else Raise (ValueError "Length of values does not match length of index").

(** [df.drop(columns=cs)] *)
Definition drop_columns (df : DataFrame) (cs : list string) : result DataFrame :=
  match filter (λ c, c ∉ columns df) cs with
  | [] => Ok {| columns := filter (λ c, c ∉ cs) (columns df);
                rows := (λ r, foldr delete r cs) <$> rows df |}
  | c :: _ => Raise (KeyError c)
  end.

(** *** Ordering of sort keys

    Missing keys go last whatever the direction ([na_position="last"]).
    Numbers compare by value, texts byte-wise.  A number is never compared
    with a text: [sort_values] raises before (see [sortable]). *)

Definition value_leb (a b : cell) : bool :=
  match a, b with
  | Num p, Num q => Qle_bool p q
  | Str s, Str t => String.leb s t
  | Num _, Str _ => true
  | Str _, Num _ => false
  | NaN, NaN => true
  | NaN, _ => false
  | _, NaN => true
  end.

Definition key_leb (asc : bool) (a b : cell) : bool :=
  match a, b with
  | _, NaN => true
  | NaN, _ => false
  | _, _ => if asc then value_leb a b else value_leb b a
  end.

Fixpoint rows_leb (keys : list (string * bool)) (r1 r2 : Row) : bool :=
  match keys with
  | [] => true
  | (c, asc) :: ks =>
      let a := row_get c r1 in
      let b := row_get c r2 in
      if key_leb asc a b then
        if key_leb asc b a then rows_leb ks r1 r2 else true
      else false
  end.

Definition row_le (keys : list (string * bool)) : relation Row :=
  λ r1 r2, Is_true (rows_leb keys r1 r2).

Definition is_num (c : cell) : bool :=
  match c with Num _ => true | _ => false end.
Definition is_str (c : cell) : bool :=
  match c with Str _ => true | _ => false end.

(** A key column can be ordered when its present cells are all numbers or
    all texts. *)
Definition sortable (s : Series) : bool :=
  forallb (λ c, isna c || is_num c) s || forallb (λ c, isna c || is_str c) s.

(** A stable sort by insertion: rows with equal keys keep their order, as in
    the lexsort pandas uses for several keys.  (With one key pandas hands
    the present keys to numpy's quicksort, which fixes no order among equal
    keys; the missing ones keep theirs.) *)
Fixpoint insert_sorted {A} (leb : A → A → bool) (x : A) (l : list A) : list A :=
  match l with
  | [] => [x]
  | y :: l' => if leb x y then x :: l else y :: insert_sorted leb x l'
  end.

Definition stable_sort {A} (leb : A → A → bool) (l : list A) : list A :=
  foldr (insert_sorted leb) [] l.

(** [df.sort_values(by, ascending=ascending)] *)
Definition sort_values (df : DataFrame) (by_ : list string) (ascending : list bool)
    : result DataFrame :=
  if bool_decide (length by_ = length ascending) then
    keys ← mapM (getitem df) by_;
    if forallb sortable keys then
      Ok {| columns := columns df;
            rows := stable_sort (rows_leb (zip by_ ascending)) (rows df) |}
    else Raise (TypeError "'<' not supported between instances of 'str' and 'float'")
  else Raise (ValueError "Length of ascending != length of by").

(** ** Patterns ([re], the fragment the source uses)

    A pattern is one capturing group around a sequence of atoms, each a
    literal character, an escaped backslash or the digit class, optionally
    followed by a repetition count in braces.  The pattern text is read
    character by character, as the [re] compiler reads it. *)

Inductive atom :=
  | Lit (a : ascii)
  | Digit.

Inductive pstate :=
  | PNormal
  | PEscape
  | PCount (n : nat).

Definition is_meta (a : ascii) : bool :=
  bool_decide (a ∈ [".";"^";"$";"*";"+";"?";"}";"[";"]";"|";"(";")"]%char).

Definition flush (prev : option atom) (acc : list atom) : list atom :=
  match prev with Some t => acc ++ [t] | None => acc end.

Fixpoint parse_atoms (st : pstate) (prev : option atom) (acc : list atom)
    (s : string) : option (list atom) :=
  match s with
  | EmptyString =>
      match st with PNormal => Some (flush prev acc) | _ => None end
  | String a s' =>
      match st with
      | PNormal =>
          if bool_decide (a = "\"%char) then parse_atoms PEscape None (flush prev acc) s'
          else if bool_decide (a = "{"%char) then
            match prev with
            | Some _ => parse_atoms (PCount 0) prev acc s'
            | None => None
            end
          else if is_meta a then None
          else parse_atoms PNormal (Some (Lit a)) (flush prev acc) s'
      | PEscape =>
          if bool_decide (a = "d"%char) then parse_atoms PNormal (Some Digit) acc s'
          else if bool_decide (a = "\"%char) then parse_atoms PNormal (Some (Lit a)) acc s'
          else None
      | PCount n =>
          match Ascii.is_nat a with
          | Some d => parse_atoms (PCount (10 * n + d)) prev acc s'
          | None =>
              if bool_decide (a = "}"%char) then
                match prev with
                | Some t => parse_atoms PNormal None (acc ++ replicate n t) s'
                | None => None
                end
              else None
          end
      end
  end.

(** [re.compile] of a pattern of the form [(body)]. *)
Definition re_compile (pat : string) : option (list atom) :=
  match pat with
  | String "(" body =>
      if endswith body ")" then parse_atoms PNormal None [] (drop_last body)
      else None
  | _ => None
  end.

Definition atom_match (t : atom) (a : ascii) : bool :=
  match t with
  | Lit c => bool_decide (a = c)
  | Digit => ascii_in_range 48 57 a
  end.

(** The text matched by the atoms at the start of [s]. *)
Fixpoint match_here (p : list atom) (s : string) : option string :=
  match p with
  | [] => Some EmptyString
  | t :: p' =>
      match s with
      | String a s' =>
          if atom_match t a then String a <$> match_here p' s' else None
      | EmptyString => None
      end
  end.

(** [re.search]: the leftmost match. *)
Fixpoint re_search (p : list atom) (s : string) : option string :=
  match match_here p s with
  | Some m => Some m
  | None =>
      match s with
      | String _ s' => re_search p s'
      | EmptyString => None
      end
  end.

(** [Series.str.extract(pat)] with a single group: the first match of the
    group, [NaN] where there is none or the cell is not a text. *)
Definition str_extract (pat : string) (s : Series) : result Series :=
  match re_compile pat with
  | Some p =>
      Ok ((λ c, match c with
                | Str t => match re_search p t with Some m => Str m | None => NaN end
                | _ => NaN
                end) <$> s)
  | None => Raise (ValueError "pattern outside the modelled fragment")
  end.

(** [.astype(float)]: every text must be a number. *)
Definition astype_float (s : Series) : result Series :=
  mapM (λ c, match c with
             | Str t =>
                 match parse_number t with
                 | Some q => Ok (Num q)
                 | None => Raise (ValueError ("could not convert string to float: " +:+ t))
                 end
             | _ => Ok c
             end) s.

(** ** The host: what pandas and the operating system supply *)

Abbreviation Path := (list string).

Class Host := {
  (** [Path(__file__).resolve().parents[1]] *)
  ROOT : Path;
  (** [str(x)] of a number *)
  repr_num : Q → string;
  (** the parser behind [pd.read_csv] *)
  csv_parse : string → result DataFrame;
  (** the text [DataFrame.to_csv(index=False)] writes *)
  csv_render : DataFrame → string;
  (** [DataFrame.to_latex(index=False, escape=True)] *)
  latex_render : DataFrame → result string;
}.

(** ** The world: files and standard output *)

Record World := mkWorld {
  files : gmap Path string;
  (** paths that cannot be opened for writing *)
  denied : gset Path;
  stdout : list string;
}.

Definition io (A : Type) : Type := World → World * result A.

#[global] Instance io_ret : MRet io := λ A a w, (w, Ok a).
#[global] Instance io_bind : MBind io := λ A B f m w,
  match m w with
  | (w', Ok a) => f a w'
  | (w', Raise e) => (w', Raise e)
  end.

Definition lift {A} (r : result A) : io A := λ w, (w, r).

(** [try: body / except Exception as e: handler e] *)
Definition try_except {A} (body : io A) (handler : exn → io A) : io A := λ w,
  match body w with
  | (w', Ok a) => (w', Ok a)
  | (w', Raise e) => handler e w'
  end.

Definition print (line : string) : io unit := λ w,
  (mkWorld (files w) (denied w) (stdout w ++ [line]), Ok ()).

Definition path_str (p : Path) : string :=
  foldr (λ part acc, "/" +:+ part +:+ acc) "" p.

Definition exn_str (e : exn) : string :=
  match e with
  | KeyError m | ValueError m | TypeError m | OSError m
  | FileNotFoundError m | ParserError m | RenderError m => m
  end.

(** [open(p, "w")]: creates or truncates. *)
Definition open_w (p : Path) : io unit := λ w,
  if bool_decide (p ∈ denied w)
  then (w, Raise (OSError ("Permission denied: " +:+ path_str p)))
  else (mkWorld (<[p := ""]> (files w)) (denied w) (stdout w), Ok ()).

(** [f.write(text)] on the file opened at [p]. *)
Definition file_write (p : Path) (text : string) : io unit := λ w,
  (mkWorld (<[p := default "" (files w !! p) +:+ text]> (files w))
           (denied w) (stdout w), Ok ()).

Section pipelines.
Context `{!Host}.

Definition RAW : Path := ROOT ++ ["data"; "raw"].

(** [pd.read_csv(p)] *)
Definition read_csv (p : Path) : io DataFrame := λ w,
  match files w !! p with
  | Some text => (w, csv_parse text)
  | None => (w, Raise (FileNotFoundError (path_str p)))
  end.

(** [df.to_csv(p, index=False)] *)
Definition to_csv (df : DataFrame) (p : Path) : io unit := λ w,
  if bool_decide (p ∈ denied w)
  then (w, Raise (OSError ("Permission denied: " +:+ path_str p)))
  else (mkWorld (<[p := csv_render df]> (files w)) (denied w) (stdout w), Ok ()).

(** [str(val)] *)
Definition str_of_cell (c : cell) : string :=
  match c with
  | NaN => "nan"
  | Num q => repr_num q
  | Str s => s
  end.

(** [.astype(str)] *)
Definition astype_str (s : Series) : Series := Str ∘ str_of_cell <$> s.

(** *** make_figures.py *)


(** make_figure2, lines 71-75 *)
Definition make_figure2_frame (df : DataFrame) : result DataFrame :=
  year ← getitem df "year";
  year ← to_numeric errors_coerce year;
  df ← setitem df "year" year;
  acc ← getitem df "accuracy_pct";
  acc ← to_numeric errors_coerce acc;
  df ← setitem df "accuracy_pct" acc;
  size ← getitem df "defect_size_nm";
  size ← to_numeric errors_coerce size;
  df ← setitem df "defect_size_nm" size;
  sort_values df ["year"] [true].


(** *** build_all_tables.py *)

Definition OUT : Path := ROOT ++ ["output"; "tables"].

(** [save_table], lines 10-24 *)
Definition save_table (df : DataFrame) (name : string) : io unit :=
  let csv_path := OUT ++ [name +:+ ".csv"] in
  let tex_path := OUT ++ [name +:+ ".tex"] in
  to_csv df csv_path;;
  try_except
    (open_w tex_path;;
     tex ← lift (latex_render df);
     file_write tex_path tex)
    (λ e, print ("Could not write LaTeX for " +:+ name +:+ ": " +:+ exn_str e));;
  print ("Saved " +:+ name +:+ " -> " +:+ path_str csv_path).

(** build_table1, lines 30-31: the frame handed to [save_table] *)
Definition build_table1_frame (df : DataFrame) : result DataFrame :=
  acc ← getitem df "Accuracy (%)";
  acc ← to_numeric errors_coerce acc;
  df ← setitem df "Accuracy (%)" acc;
  sort_values df ["Dataset"; "Accuracy (%)"] [true; false].

(** build_table2, lines 37-38 *)
Definition build_table2_frame (df : DataFrame) : result DataFrame :=
  speed ← getitem df "Inference Speed (img/s)";
  speed ← to_numeric errors_coerce speed;
  df ← setitem df "Inference Speed (img/s)" speed;
  sort_values df ["Hardware"; "Inference Speed (img/s)"] [true; false].

(** build_table3, lines 44-45 *)
Definition build_table3_frame (df : DataFrame) : result DataFrame :=
  year ← getitem df "Year";
  year ← to_numeric errors_coerce year;
  df ← setitem df "Year" year;
  sort_values df ["Year"] [true].

(** The pattern of line 67, character for character (a raw string keeps
    both backslashes). *)
Definition era_pattern : string := "(\\d{4})".

(** build_table7, lines 67-69 *)
Definition build_table7_frame (df : DataFrame) : result DataFrame :=
  era ← getitem df "Era";
  era ← str_extract era_pattern (astype_str era);
  era ← astype_float era;
  df ← setitem df "era_numeric" era;
  df ← sort_values df ["era_numeric"] [true];
  drop_columns df ["era_numeric"].

Definition build_table1 : io unit :=
  df ← read_csv (RAW ++ ["table1_model_performance.csv"]);
  df ← lift (build_table1_frame df);
  save_table df "table1_model_performance".

Definition build_table2 : io unit :=
  df ← read_csv (RAW ++ ["table2_hardware_speeds.csv"]);
  df ← lift (build_table2_frame df);
  save_table df "table2_hardware_speeds".

Definition build_table3 : io unit :=
  df ← read_csv (RAW ++ ["table3_datasets.csv"]);
  df ← lift (build_table3_frame df);
  save_table df "table3_datasets".

Definition build_table4 : io unit :=
  df ← read_csv (RAW ++ ["table4_challenges.csv"]);
  save_table df "table4_challenges".

Definition build_table5 : io unit :=
  df ← read_csv (RAW ++ ["table5_future_research.csv"]);
  save_table df "table5_future_research".

Definition build_table6 : io unit :=
  df ← read_csv (RAW ++ ["table6_implementation_phases.csv"]);
  save_table df "table6_implementation_phases".

Definition build_table7 : io unit :=
  df ← read_csv (RAW ++ ["table7_evolution_technologies.csv"]);
  df ← lift (build_table7_frame df);
  save_table df "table7_evolution_technologies".

(** The script body, lines 73-80 *)
Definition main : io unit :=
  build_table1;; build_table2;; build_table3;; build_table4;;
  build_table5;; build_table6;; build_table7.
End pipelines.

(** ** A host to run the pipelines on concrete inputs

    Comma-separated text without quoting: one line per row, the first line
    the header; an empty field is missing, a numeric field a number. *)

Fixpoint split_on (sep : ascii) (cur : string) (s : string) : list string :=
  match s with
  | EmptyString => [String.rev cur]
  | String a s' =>
      if bool_decide (a = sep) then String.rev cur :: split_on sep "" s'
      else split_on sep (String a cur) s'
  end.

Definition join_with (sep : string) (parts : list string) : string :=
  match parts with
  | [] => ""
  | p :: ps => p +:+ foldr (λ x acc, sep +:+ x +:+ acc) "" ps
  end.

Definition plain_cell (field : string) : cell :=
  match field with
  | EmptyString => NaN
  | _ => match parse_number field with Some q => Num q | None => Str field end
  end.

(** The least [k] up to [fuel] with [d] dividing [10^k]. *)
Fixpoint decimal_places (d : Z) (k fuel : nat) : option nat :=
  if (10 ^ Z.of_nat k) `mod` d =? 0 then Some k
  else match fuel with
       | O => None
       | S fuel' => decimal_places d (S k) fuel'
       end.

Definition plain_repr (q : Q) : string :=
  let d := Zpos (Qden q) in
  match decimal_places d 0 (Pos.size_nat (Qden q)) with
  | Some O => pretty (Qnum q)
  | Some k =>
      let p := 10 ^ Z.of_nat k in
      let scaled := Z.abs (Qnum q) * p `div` d in
      let frac := pretty (scaled `mod` p) in
      (if Qnum q <? 0 then "-" else "") +:+ pretty (scaled `div` p) +:+ "." +:+
      foldr (λ _ acc, "0" +:+ acc) frac (replicate (k - String.length frac) ())
  | None => pretty (Qnum q) +:+ "/" +:+ pretty d
  end.

Definition plain_field (c : cell) : string :=
  match c with
  | NaN => ""
  | Num q => plain_repr q
  | Str s => s
  end.

Definition plain_csv_parse (text : string) : result DataFrame :=
  match filter (λ l, l ≠ "") (split_on "010" "" text) with
  | [] => Raise (ParserError "No columns to parse from file")
  | header :: lines =>
      let cols := split_on "," "" header in
      Ok {| columns := cols;
            rows := (λ l, list_to_map (zip cols (plain_cell <$> split_on "," "" l)))
                    <$> lines |}
  end.

Definition plain_csv_render (df : DataFrame) : string :=
  foldr (λ l acc, l +:+ String "010" acc) ""
    (join_with "," (columns df)
     :: ((λ r, join_with "," ((λ c, plain_field (row_get c r)) <$> columns df))
         <$> rows df)).

Definition plain_host : Host := {|
  ROOT := ["repo"];
  repr_num := plain_repr;
  csv_parse := plain_csv_parse;
  csv_render := plain_csv_render;
  latex_render := λ df,
    match columns df with
    | [] => Raise (RenderError "no columns to render")
    | _ => Ok ("\begin{tabular}" +:+ plain_csv_render df +:+ "\end{tabular}")
    end;
|}.

(** ** Sample inputs *)

Definition frame_of (cols : list string) (data : list (list cell)) : DataFrame :=
  {| columns := cols; rows := (λ cells, list_to_map (zip cols cells)) <$> data |}.

(** Model performance, with one accuracy that is not a number. *)
Definition models_frame : DataFrame :=
  frame_of ["Model"; "Accuracy (%)"; "FLOPs"; "Dataset"]
    [ [Str "ResNet-50"; Str "TBD"; Str "4.1B"; Str "MixedWM38"];
      [Str "ViT-B"; Str "90"; Str "17.6G"; Str "WM-811K"];
      [Str "WaferNet"; Str "95.5"; Str "1200M"; Str "MixedWM38"] ].

(** Hardware speeds, with one speed that is not a number. *)
Definition hardware_frame : DataFrame :=
  frame_of ["Hardware"; "Model"; "Inference Speed (img/s)"]
    [ [Str "A100"; Str "ViT-B"; Str "pending"];
      [Str "T4"; Str "ViT-B"; Str "310"];
      [Str "A100"; Str "WaferNet"; Str "2400"] ].

(** Datasets, with one year that is not a number. *)
Definition datasets_frame : DataFrame :=
  frame_of ["Dataset"; "Year"; "Classes"]
    [ [Str "MixedWM38"; Str "2020"; Str "38"];
      [Str "In-house"; Str "unknown"; Str "5"];
      [Str "WM-811K"; Str "2015"; Str "9"] ].

(** Technology eras, newest first. *)
Definition eras_frame : DataFrame :=
  frame_of ["Era"; "Technology"]
    [ [Str "2010s"; Str "Deep learning"];
      [Str "1990s"; Str "Optical inspection"] ].

(** Technology eras, one of them holding a backslash and four letters d. *)
Definition eras_backslash_frame : DataFrame :=
  frame_of ["Era"; "Technology"]
    [ [Str "1990s"; Str "Optical inspection"];
      [Str "see \dddd"; Str "Placeholder"] ].

(** A world with the given files and write-protected paths. *)
Definition world_with (fs : list (Path * string)) (locked : list Path) : World :=
  mkWorld (list_to_map fs) (list_to_set locked) [].

Definition eras_csv : Path := ["repo"; "output"; "tables"; "eras.csv"].
Definition eras_tex : Path := ["repo"; "output"; "tables"; "eras.tex"].

Definition nl : string := String "010" "".

(** A raw directory holding only the evolution-technologies table, with the
    rows of [eras_backslash_frame]. *)
Definition eras_backslash_world : World :=
  world_with
    [ (["repo"; "data"; "raw"; "table7_evolution_technologies.csv"],
       "Era,Technology" +:+ nl +:+
       "1990s,Optical inspection" +:+ nl +:+
       "see \dddd,Placeholder" +:+ nl) ]
    [].

Definition raw_file (name : string) : Path := ["repo"; "data"; "raw"; name].

(** A raw directory with the seven tables. *)
Definition raw_world : World :=
  world_with
    [ (raw_file "table1_model_performance.csv", plain_csv_render models_frame);
      (raw_file "table2_hardware_speeds.csv", plain_csv_render hardware_frame);
      (raw_file "table3_datasets.csv", plain_csv_render datasets_frame);
      (raw_file "table4_challenges.csv",
       "Challenge,Impact" +:+ nl +:+ "Class imbalance,High" +:+ nl);
      (raw_file "table5_future_research.csv",
       "Direction,Horizon" +:+ nl +:+ "Self-supervision,Near" +:+ nl);
      (raw_file "table6_implementation_phases.csv",
       "Phase,Months" +:+ nl +:+ "Pilot,3" +:+ nl +:+ "Rollout,9" +:+ nl);
      (raw_file "table7_evolution_technologies.csv", plain_csv_render eras_frame) ]
    [].

(** ** Notions used to state the properties *)

Section notions.
Context `{!Host}.




(** The number a text stands for, or missing. *)
Definition numeric_or_missing (t : string) : cell :=
  match parse_number t with Some q => Num q | None => NaN end.

(** What numeric coercion makes of a cell. *)
Definition coerced (c : cell) : cell :=
  match c with Str t => numeric_or_missing t | _ => c end.

(** The frame with [f] applied to the cells of column [c]. *)
Definition map_column (c : string) (f : cell → cell) (df : DataFrame) : DataFrame :=
  {| columns := columns df;
     rows := (λ r, <[c := f (row_get c r)]> r) <$> rows df |}.

(** The shape shared by the first three tables: coerce one column, then
    sort. *)
Definition coerce_then_sort (c : string) (by_ : list string) (ascending : list bool)
    (df : DataFrame) : result DataFrame :=
  s ← getitem df c;
  s ← to_numeric errors_coerce s;
  df ← setitem df c s;
  sort_values df by_ ascending.

(** Rows ordered by one column, missing cells last. *)
Definition sorted_by (c : string) (asc : bool) (l : list Row) : Prop :=
  StronglySorted (λ r1 r2, key_leb asc (row_get c r1) (row_get c r2)) l.

(** The rows of one group. *)
Definition group (g : string) (v : cell) (l : list Row) : list Row :=
  filter (λ r, row_get g r = v) l.

(** No row with a missing [c] comes before a row with [c] present. *)
Definition missing_last (c : string) (l : list Row) : Prop :=
  ∀ i j r1 r2, (i < j)%nat → l !! i = Some r1 → l !! j = Some r2 →
    row_get c r1 = NaN → row_get c r2 = NaN.


(** The text a sequence of literal atoms spells. *)
Definition atoms_text (p : list atom) : string :=
  foldr (λ t acc, match t with Lit a => String a acc | Digit => acc end) "" p.

(** The shape of every table builder: read, apply a rule, save. *)
Definition table_job (input : string) (rule : DataFrame → result DataFrame)
    (name : string) : io unit :=
  df ← read_csv (RAW ++ [input]);
  df ← lift (rule df);
  save_table df name.


(** Writing named files of the output directory, in order. *)
Fixpoint write_all (ws : list (string * string)) (fs : gmap Path string)
    : gmap Path string :=
  match ws with
  | [] => fs
  | (n, text) :: ws' => write_all ws' (<[OUT ++ [n] := text]> fs)
  end.

(** Two worlds with the same raw inputs and the same write permissions. *)
Definition same_inputs (w1 w2 : World) : Prop :=
  denied w1 = denied w2 ∧
  ∀ f, files w1 !! (RAW ++ [f]) = files w2 !! (RAW ++ [f]).

(** An action whose result and whose writes, all of them in the output
    directory, are fixed by the raw inputs and the write permissions. *)
Definition tidy (m : io unit) : Prop :=
  ∀ w1 w2, same_inputs w1 w2 →
    ∃ ws r out1 out2,
      m w1 = (mkWorld (write_all ws (files w1)) (denied w1) out1, r) ∧
      m w2 = (mkWorld (write_all ws (files w2)) (denied w2) out2, r).


End notions.

(** ** Further notions *)

(** The rows whose cells in the columns [cs] are the cells [vs]. *)
Definition rows_with (cs : list string) (vs : list cell) (l : list Row) : list Row :=
  filter (λ r, (λ c, row_get c r) <$> cs = vs) l.

(** [l2] has the rows of [l1] with keys [vs] in the order of [l1]. *)
Definition same_order_among (cs : list string) (vs : list cell) (l1 l2 : list Row) : Prop :=
  rows_with cs vs l2 = rows_with cs vs l1.

(** Table 8, with a year that is not a number. *)
Definition evolution_frame : DataFrame :=
  frame_of ["year"; "accuracy_pct"; "defect_size_nm"; "category"; "label"]
    [ [Str "2012"; Str "92.5"; Str "45"; Str "DL"; Str "CNN"];
      [Str "circa 1975"; Str "60"; Str "n/a"; Str "Manual"; Str "Visual"];
      [Str "1995"; Str "75"; Str "350"; Str "Optical"; Str "AOI"];
      [Str "soon"; Str "99"; Str "3"; Str "Quantum"; Str "Next"] ].

Section further_notions.
Context `{!Host}.

(** When the raw file is missing, is not a table or makes the rule raise,
    [job] raises that exception and leaves the world as it was. *)
Definition aborts_untouched (job : io unit) (input : string)
    (rule : DataFrame → result DataFrame) : Prop :=
  ∀ w,
    match files w !! (RAW ++ [input]) with
    | None => job w = (w, Raise (FileNotFoundError (path_str (RAW ++ [input]))))
    | Some text =>
        match csv_parse text with
        | Raise e => job w = (w, Raise e)
        | Ok df =>
            match rule df with
            | Raise e => job w = (w, Raise e)
            | Ok _ => True
            end
        end
    end.

(** [tidy], with the names of the files written among [names]. *)
Definition tidy_in (names : list string) (m : io unit) : Prop :=
  ∀ w1 w2, same_inputs w1 w2 →
    ∃ ws r out1 out2,
      Forall (λ nt, nt.1 ∈ names) ws ∧
      m w1 = (mkWorld (write_all ws (files w1)) (denied w1) out1, r) ∧
      m w2 = (mkWorld (write_all ws (files w2)) (denied w2) out2, r).

(** The two files of a table. *)
Definition outputs_of (name : string) : list string :=
  [name +:+ ".csv"; name +:+ ".tex"].

(** [m] changes no write permission and no file other than the two files
    of [name]. *)
Definition touches_only (m : io unit) (name : string) : Prop :=
  ∀ w, denied (m w).1 = denied w ∧
       ∀ p, p ≠ OUT ++ [name +:+ ".csv"] → p ≠ OUT ++ [name +:+ ".tex"] →
            files (m w).1 !! p = files w !! p.

(** Run one after the other, in either order, [m1] and [m2] leave the same
    files, and each ends as it does when run alone. *)
Definition independent (m1 m2 : io unit) : Prop :=
  ∀ w, files (m2 (m1 w).1).1 = files (m1 (m2 w).1).1 ∧
       (m2 (m1 w).1).2 = (m2 w).2 ∧
       (m1 (m2 w).1).2 = (m1 w).2.

(** The builders, in the order of the script. *)
Definition table_builders : list (io unit) :=
  [build_table1; build_table2; build_table3; build_table4;
   build_table5; build_table6; build_table7].

(** Their names, in the same order. *)
Definition table_names : list string :=
  ["table1_model_performance"; "table2_hardware_speeds"; "table3_datasets";
   "table4_challenges"; "table5_future_research";
   "table6_implementation_phases"; "table7_evolution_technologies"].

(** [m] keeps the write permissions, every file outside the output
    directory and the existence of every file. *)
Definition confined (m : io unit) : Prop :=
  ∀ w, denied (m w).1 = denied w ∧
       (∀ p, (∀ n, p ≠ OUT ++ [n]) → files (m w).1 !! p = files w !! p) ∧
       (∀ p, is_Some (files w !! p) → is_Some (files (m w).1 !! p)).

(** After [job] the CSV file of [name] holds the frame [rule] makes of the
    table in the raw file [input] of the world [w]. *)
Definition holds_table (w w' : World) (input name : string)
    (rule : DataFrame → result DataFrame) : Prop :=
  ∃ text df out,
    files w !! (RAW ++ [input]) = Some text ∧
    csv_parse text = Ok df ∧
    rule df = Ok out ∧
    files w' !! (OUT ++ [name +:+ ".csv"]) = Some (csv_render out).
End further_notions.

(** * Properties *)

(** ** Results *)

Lemma bind_Ok {A B} (f : A → result B) (m : result A) (b : B) :
  m ≫= f = Ok b ↔ ∃ a, m = Ok a ∧ f a = Ok b.
Proof.
  destruct m as [a|e]; simpl; split.
  - eauto.
  - by intros (? & [= <-] & ?).
  - done.
  - by intros (? & [=] & ?).
Qed.

Lemma mapM_Ok {A B} (f : A → result B) (l : list A) (k : list B) :
  mapM f l = Ok k ↔ Forall2 (λ x y, f x = Ok y) l k.
Proof.
  revert k. induction l as [|x l IH]; intros k; simpl.
  - split; [intros [= <-]; constructor | by inversion 1].
  - split.
    + intros (y & Hy & (k' & Hk' & [= <-])%bind_Ok)%bind_Ok.
      constructor; [done | by apply IH].
    + inversion 1 as [|? y ? k' Hy Hk']; subst.
      apply bind_Ok. exists y. split; [done|].
      apply bind_Ok. exists k'. split; [by apply IH | done].
Qed.

Lemma mapM_total {A B} (f : A → result B) (g : A → B) (l : list A) :
  (∀ x, f x = Ok (g x)) → mapM f l = Ok (g <$> l).
Proof.
  intros Hf. apply mapM_Ok. induction l; constructor; auto.
Qed.

Lemma length_mapM_Ok {A B} (f : A → result B) (l : list A) (k : list B) :
  mapM f l = Ok k → length k = length l.
Proof. intros Hk%mapM_Ok. symmetry. by eapply Forall2_length. Qed.

(** ** Numeric coercion *)

Lemma to_numeric_cell_coerce (c : cell) :
  to_numeric_cell errors_coerce c = Ok (coerced c).
Proof.
  destruct c as [|q|s]; simpl; try done.
  unfold numeric_or_missing. by destruct (parse_number s).
Qed.

Lemma to_numeric_coerce (s : Series) :
  to_numeric errors_coerce s = Ok (coerced <$> s).
Proof. apply mapM_total, to_numeric_cell_coerce. Qed.

Lemma coerced_numeric (c : cell) : isna (coerced c) || is_num (coerced c).
Proof.
  destruct c as [|q|s]; simpl; try done.
  unfold numeric_or_missing. by destruct (parse_number s).
Qed.



(** ** The conversions of make_figures.py *)

Section figure_cells.
Context `{!Host}.







End figure_cells.




(** ** The order of sort keys *)

Lemma value_leb_refl (a : cell) : value_leb a a.
Proof.
  destruct a as [|q|s]; simpl; [done| |].
  - apply Is_true_true, Qle_bool_iff, Qle_refl.
  - change (String.le s s). done.
Qed.

Lemma value_leb_total (a b : cell) : value_leb a b ∨ value_leb b a.
Proof.
  destruct a as [|p|s], b as [|q|t]; simpl; auto.
  - destruct (Qlt_le_dec p q) as [Hlt%Qlt_le_weak|Hle].
    + left. by apply Is_true_true, Qle_bool_iff.
    + right. by apply Is_true_true, Qle_bool_iff.
  - destruct (total String.le s t); auto.
Qed.

Lemma value_leb_trans (a b c : cell) :
  value_leb a b → value_leb b c → value_leb a c.
Proof.
  destruct a as [|p|s], b as [|q|t], c as [|r|u]; simpl; try done.
  - intros H1%Is_true_true%Qle_bool_iff H2%Is_true_true%Qle_bool_iff.
    apply Is_true_true, Qle_bool_iff. by eapply Qle_trans.
  - intros H1 H2. change (String.le s u). by trans t.
Qed.

Lemma key_leb_present (asc : bool) (a b : cell) :
  isna a = false → isna b = false →
  key_leb asc a b = if asc then value_leb a b else value_leb b a.
Proof. by destruct a, b. Qed.

Lemma key_leb_refl (asc : bool) (a : cell) : key_leb asc a a.
Proof.
  destruct (isna a) eqn:Ha; [by destruct a|].
  rewrite key_leb_present by done. destruct asc; apply value_leb_refl.
Qed.

Lemma key_leb_total (asc : bool) (a b : cell) : key_leb asc a b ∨ key_leb asc b a.
Proof.
  destruct (isna a) eqn:Ha; [right; by destruct a, b|].
  destruct (isna b) eqn:Hb; [left; by destruct a, b|].
  rewrite !key_leb_present by done.
  destruct asc, (value_leb_total a b); auto.
Qed.

Lemma key_leb_trans (asc : bool) (a b c : cell) :
  key_leb asc a b → key_leb asc b c → key_leb asc a c.
Proof.
  destruct (isna c) eqn:Hc; [by destruct a, c|].
  destruct (isna b) eqn:Hb; [by destruct b, c|].
  destruct (isna a) eqn:Ha; [by destruct a, b|].
  rewrite !key_leb_present by done.
  destruct asc; eauto using value_leb_trans.
Qed.

(** Missing keys are last in either direction. *)
Lemma key_leb_nan_l (asc : bool) (b : cell) : key_leb asc NaN b → b = NaN.
Proof. by destruct b. Qed.

Lemma key_leb_num_asc (p q : Q) : key_leb true (Num p) (Num q) ↔ (p <= q)%Q.
Proof. simpl. by rewrite Is_true_true, Qle_bool_iff. Qed.

Lemma key_leb_num_desc (p q : Q) : key_leb false (Num p) (Num q) ↔ (q <= p)%Q.
Proof. simpl. by rewrite Is_true_true, Qle_bool_iff. Qed.

Lemma key_leb_str_asc (s t : string) :
  key_leb true (Str s) (Str t) ↔ String.le s t.
Proof. done. Qed.

Lemma rows_leb_cons (c : string) (asc : bool) (ks : list (string * bool)) (r1 r2 : Row) :
  rows_leb ((c, asc) :: ks) r1 r2 ↔
  key_leb asc (row_get c r1) (row_get c r2) ∧
  (key_leb asc (row_get c r2) (row_get c r1) → rows_leb ks r1 r2).
Proof.
  simpl. destruct (key_leb asc (row_get c r1) (row_get c r2)),
    (key_leb asc (row_get c r2) (row_get c r1)); simpl; tauto.
Qed.

#[global] Instance row_le_total (keys : list (string * bool)) : Total (row_le keys).
Proof.
  unfold row_le. induction keys as [|[c asc] ks IH]; intros r1 r2; [by left|].
  rewrite !rows_leb_cons.
  pose proof (key_leb_total asc (row_get c r1) (row_get c r2)) as Ht.
  destruct (key_leb asc (row_get c r1) (row_get c r2)),
    (key_leb asc (row_get c r2) (row_get c r1)), (IH r1 r2); simpl in *; tauto.
Qed.

#[global] Instance row_le_trans (keys : list (string * bool)) : Transitive (row_le keys).
Proof.
  unfold row_le. induction keys as [|[c asc] ks IH]; intros r1 r2 r3; [done|].
  rewrite !rows_leb_cons. intros [H12 K12] [H23 K23]. split.
  - by eapply key_leb_trans.
  - intros H31. eapply IH.
    + apply K12. by eapply key_leb_trans.
    + apply K23. by eapply key_leb_trans.
Qed.

(** The first key alone orders a list sorted by all keys. *)
Lemma row_le_first_key (c : string) (asc : bool) (ks : list (string * bool)) (r1 r2 : Row) :
  row_le ((c, asc) :: ks) r1 r2 → key_leb asc (row_get c r1) (row_get c r2).
Proof. unfold row_le. rewrite rows_leb_cons. tauto. Qed.

(** Rows that agree on the first key are ordered by the remaining keys. *)
Lemma row_le_same_first_key (c : string) (asc : bool) (ks : list (string * bool))
    (r1 r2 : Row) :
  row_get c r1 = row_get c r2 →
  row_le ((c, asc) :: ks) r1 r2 → row_le ks r1 r2.
Proof.
  unfold row_le. rewrite rows_leb_cons. intros Heq [_ H]. apply H.
  rewrite Heq. apply key_leb_refl.
Qed.

(** ** The stable sort *)

Section stable_sort.
Context {A} (leb : A → A → bool).

Lemma insert_sorted_Permutation (x : A) (l : list A) :
  insert_sorted leb x l ≡ₚ x :: l.
Proof.
  induction l as [|y l IH]; simpl; [done|].
  destruct (leb x y); [done|]. by rewrite IH, Permutation_swap.
Qed.

Lemma stable_sort_Permutation (l : list A) : stable_sort leb l ≡ₚ l.
Proof.
  induction l as [|x l IH]; simpl; [done|].
  by rewrite insert_sorted_Permutation, IH.
Qed.

Lemma insert_sorted_sorted `{!Total (λ x y, Is_true (leb x y))}
    `{!Transitive (λ x y, Is_true (leb x y))} (x : A) (l : list A) :
  StronglySorted (λ x y, Is_true (leb x y)) l →
  StronglySorted (λ x y, Is_true (leb x y)) (insert_sorted leb x l).
Proof.
  induction 1 as [|y l Hl IH Hy]; simpl; [by repeat constructor|].
  destruct (leb x y) eqn:Hxy.
  - constructor; [by constructor|]. constructor; [by rewrite Hxy|].
    eapply Forall_impl; [done|]. intros z Hyz. simpl in Hyz.
    trans y; [by rewrite Hxy | done].
  - constructor; [done|]. rewrite insert_sorted_Permutation.
    constructor; [|done].
    destruct (total (λ x y, Is_true (leb x y)) x y) as [Hle|Hle]; [|done].
    by rewrite Hxy in Hle.
Qed.

Lemma stable_sort_sorted `{!Total (λ x y, Is_true (leb x y))}
    `{!Transitive (λ x y, Is_true (leb x y))} (l : list A) :
  StronglySorted (λ x y, Is_true (leb x y)) (stable_sort leb l).
Proof.
  induction l as [|x l IH]; simpl; [constructor|]. by apply insert_sorted_sorted.
Qed.

(** Elements that are all related to one another stay in place. *)
Lemma stable_sort_related (P : A → Prop) (l : list A) :
  (∀ x y, P x → P y → leb x y = true) → Forall P l → stable_sort leb l = l.
Proof.
  intros Hrel. induction 1 as [|x l Hx Hl IH]; simpl; [done|].
  rewrite IH. destruct Hl as [|y l Hy Hl]; simpl; [done|].
  by rewrite Hrel.
Qed.
End stable_sort.

(** ** Frame operations *)

Lemma getitem_Ok (df : DataFrame) (c : string) (s : Series) :
  getitem df c = Ok s ↔ c ∈ columns df ∧ s = row_get c <$> rows df.
Proof.
  unfold getitem. case_bool_decide; split.
  - by intros [= <-].
  - by intros [_ ->].
  - done.
  - by intros [? _].
Qed.

Lemma getitem_Raise (df : DataFrame) (c : string) :
  c ∉ columns df → getitem df c = Raise (KeyError c).
Proof. intros Hc. unfold getitem. by rewrite bool_decide_eq_false_2. Qed.

Lemma row_get_insert (c : string) (v : cell) (r : Row) : row_get c (<[c := v]> r) = v.
Proof. unfold row_get. by rewrite lookup_insert_eq. Qed.

Lemma row_get_insert_ne (c d : string) (v : cell) (r : Row) :
  c ≠ d → row_get d (<[c := v]> r) = row_get d r.
Proof. intros Hne. unfold row_get. by rewrite lookup_insert_ne. Qed.

Lemma zip_with_insert_fmap (c : string) (f : Row → cell) (l : list Row) :
  zip_with (λ r v, <[c := v]> r) l (f <$> l) = (λ r, <[c := f r]> r) <$> l.
Proof. induction l; simpl; f_equal; auto. Qed.

Lemma setitem_column (df : DataFrame) (c : string) (f : cell → cell) :
  c ∈ columns df →
  setitem df c (f <$> (row_get c <$> rows df)) = Ok (map_column c f df).
Proof.
  intros Hc. unfold setitem, map_column.
  rewrite !length_fmap, bool_decide_eq_true_2 by done.
  rewrite bool_decide_eq_true_2 by done.
  by rewrite <- list_fmap_compose, zip_with_insert_fmap.
Qed.


Lemma getitem_map_column (c d : string) (f : cell → cell) (df : DataFrame) :
  getitem (map_column c f df) d =
  if bool_decide (c = d)
  then fmap (M := result) (fmap (M := list) f) (getitem df d)
  else getitem df d.
Proof.
  unfold getitem, map_column. simpl.
  case_bool_decide as Hd; case_bool_decide as Hcd; subst; simpl; try done.
  - f_equal. rewrite <- !list_fmap_compose. apply list_fmap_ext.
    intros ? r _. simpl. apply row_get_insert.
  - f_equal. rewrite <- !list_fmap_compose. apply list_fmap_ext.
    intros ? r _. simpl. by apply row_get_insert_ne.
Qed.

Lemma sort_values_Ok (df out : DataFrame) (by_ : list string) (ascending : list bool) :
  sort_values df by_ ascending = Ok out →
  columns out = columns df ∧
  rows out = stable_sort (rows_leb (zip by_ ascending)) (rows df) ∧
  Forall (λ c, c ∈ columns df) by_.
Proof.
  unfold sort_values. case_bool_decide; [|done].
  destruct (mapM (getitem df) by_) as [keys|] eqn:Hkeys; simpl; [|done].
  case_match; [|done]. intros [= <-]. split_and!; try done.
  apply mapM_Ok in Hkeys. clear -Hkeys.
  induction Hkeys as [|c s ?? Hc]; constructor; [|done].
  by apply getitem_Ok in Hc as [? _].
Qed.

Lemma sort_values_sorted (df out : DataFrame) (by_ : list string) (ascending : list bool) :
  sort_values df by_ ascending = Ok out →
  StronglySorted (row_le (zip by_ ascending)) (rows out) ∧ rows out ≡ₚ rows df.
Proof.
  intros (_ & -> & _)%sort_values_Ok. split.
  - apply (stable_sort_sorted (rows_leb _)); apply _.
  - apply stable_sort_Permutation.
Qed.

Lemma sort_values_succeeds (df : DataFrame) (by_ : list string) (ascending : list bool) :
  length by_ = length ascending →
  Forall (λ c, c ∈ columns df ∧ sortable (row_get c <$> rows df)) by_ →
  sort_values df by_ ascending =
  Ok {| columns := columns df;
        rows := stable_sort (rows_leb (zip by_ ascending)) (rows df) |}.
Proof.
  intros Hlen Hby. unfold sort_values. rewrite bool_decide_eq_true_2 by done.
  assert (mapM (getitem df) by_ = Ok ((λ c, row_get c <$> rows df) <$> by_)) as ->.
  { apply mapM_Ok, Forall2_fmap_r, Forall_Forall2_diag.
    eapply Forall_impl; [done|]. intros c [Hc _]. by apply getitem_Ok. }
  simpl. rewrite (proj2 (forallb_forall _ _)); [done|].
  intros s (c & <- & Hc)%in_map_iff. rewrite Forall_forall in Hby.
  apply Is_true_true, Hby. by apply list_elem_of_In.
Qed.

(** ** Sorted lists *)

Lemma StronglySorted_lookup {A} (R : relation A) (l : list A) (i j : nat) (x y : A) :
  StronglySorted R l → (i < j)%nat → l !! i = Some x → l !! j = Some y → R x y.
Proof.
  intros Hl. revert i j. induction Hl as [|a l Hl IH Ha]; intros i j Hij Hi Hj; [done|].
  destruct j as [|j]; [lia|]. destruct i as [|i]; simpl in *.
  - injection Hi as ->. rewrite Forall_forall in Ha.
    by eapply Ha, list_elem_of_lookup_2.
  - eapply IH; [|done..]. lia.
Qed.

Lemma StronglySorted_filter_impl {A} (R R' : relation A) (P : A → Prop)
    `{∀ x, Decision (P x)} (l : list A) :
  (∀ x y, P x → P y → R x y → R' x y) →
  StronglySorted R l → StronglySorted R' (filter P l).
Proof.
  intros HR. induction 1 as [|a l Hl IH Ha]; [constructor|].
  rewrite filter_cons. case_decide as Hpa; [|done].
  constructor; [done|]. apply Forall_forall. intros y [Hy Hin]%list_elem_of_filter.
  rewrite Forall_forall in Ha. auto.
Qed.

Lemma StronglySorted_impl {A} (R R' : relation A) (l : list A) :
  (∀ x y, R x y → R' x y) → StronglySorted R l → StronglySorted R' l.
Proof.
  intros HR. induction 1 as [|a l Hl IH Ha]; constructor; [done|].
  eapply Forall_impl; [done|]. intros y. apply HR.
Qed.

Lemma sorted_first_key (c : string) (asc : bool) (ks : list (string * bool)) (l : list Row) :
  StronglySorted (row_le ((c, asc) :: ks)) l → sorted_by c asc l.
Proof. apply StronglySorted_impl. intros r1 r2. apply row_le_first_key. Qed.

Lemma sorted_group (g : string) (ga : bool) (ks : list (string * bool)) (v : cell)
    (l : list Row) :
  StronglySorted (row_le ((g, ga) :: ks)) l →
  StronglySorted (row_le ks) (group g v l).
Proof.
  apply StronglySorted_filter_impl. intros r1 r2 H1 H2.
  apply row_le_same_first_key. congruence.
Qed.

Lemma sorted_by_missing_last (c : string) (asc : bool) (l : list Row) :
  sorted_by c asc l → missing_last c l.
Proof.
  intros Hl i j r1 r2 Hij H1 H2 Hna.
  pose proof (StronglySorted_lookup _ _ _ _ _ _ Hl Hij H1 H2) as Hle.
  simpl in Hle. rewrite Hna in Hle. by eapply key_leb_nan_l.
Qed.


(** ** Coerce, then sort *)

Lemma coerce_then_sort_Ok (c : string) (by_ : list string) (ascending : list bool)
    (df out : DataFrame) :
  coerce_then_sort c by_ ascending df = Ok out ↔
  c ∈ columns df ∧ sort_values (map_column c coerced df) by_ ascending = Ok out.
Proof.
  unfold coerce_then_sort. destruct (decide (c ∈ columns df)) as [Hc|Hc].
  - rewrite (proj2 (getitem_Ok df c _) (conj Hc eq_refl)). simpl.
    rewrite to_numeric_coerce. simpl. rewrite setitem_column by done. simpl.
    tauto.
  - rewrite getitem_Raise by done. simpl. split; [done|tauto].
Qed.


Lemma coerce_then_sort_spec (c : string) (by_ : list string) (ascending : list bool)
    (df out : DataFrame) :
  coerce_then_sort c by_ ascending df = Ok out →
  columns out = columns df ∧
  rows out ≡ₚ rows (map_column c coerced df) ∧
  StronglySorted (row_le (zip by_ ascending)) (rows out).
Proof.
  intros [Hc Hs]%coerce_then_sort_Ok.
  pose proof (sort_values_Ok _ _ _ _ Hs) as (Hcols & _ & _).
  pose proof (sort_values_sorted _ _ _ _ Hs) as (Hsorted & Hperm).
  done.
Qed.

Lemma coerced_column_numeric (c : string) (df : DataFrame) :
  Forall (λ r, isna (row_get c r) || is_num (row_get c r))
         (rows (map_column c coerced df)).
Proof.
  apply Forall_fmap, Forall_forall. intros r _. simpl.
  rewrite row_get_insert. apply coerced_numeric.
Qed.

Lemma coerced_column_sortable (c : string) (df : DataFrame) :
  sortable (row_get c <$> rows (map_column c coerced df)).
Proof.
  unfold sortable. apply orb_True. left. apply Is_true_true, forallb_forall.
  intros x (r & <- & Hr)%in_map_iff. apply Is_true_true.
  pose proof (coerced_column_numeric c df) as Hnum.
  rewrite Forall_forall in Hnum. by apply Hnum, list_elem_of_In.
Qed.

Lemma coerce_then_sort_succeeds (c : string) (by_ : list string) (ascending : list bool)
    (df : DataFrame) :
  c ∈ columns df →
  length by_ = length ascending →
  Forall (λ k, k ∈ columns df ∧ (k = c ∨ sortable (row_get k <$> rows df))) by_ →
  ∃ out, coerce_then_sort c by_ ascending df = Ok out.
Proof.
  intros Hc Hlen Hby. eexists. apply coerce_then_sort_Ok. split; [done|].
  apply sort_values_succeeds; [done|].
  eapply Forall_impl; [done|]. intros k [Hk Hsort]. split; [done|].
  destruct (decide (k = c)) as [->|Hne]; [apply coerced_column_sortable|].
  destruct Hsort as [?|Hsort]; [done|].
  simpl. rewrite <- list_fmap_compose.
  erewrite list_fmap_ext; [done|]. intros ? r _. simpl.
  by apply row_get_insert_ne.
Qed.

(** ** The table frames *)

Lemma build_table1_frame_shape :
  build_table1_frame =
  coerce_then_sort "Accuracy (%)" ["Dataset"; "Accuracy (%)"] [true; false].
Proof. reflexivity. Qed.

Lemma build_table2_frame_shape :
  build_table2_frame =
  coerce_then_sort "Inference Speed (img/s)"
    ["Hardware"; "Inference Speed (img/s)"] [true; false].
Proof. reflexivity. Qed.

Lemma build_table3_frame_shape :
  build_table3_frame = coerce_then_sort "Year" ["Year"] [true].
Proof. reflexivity. Qed.



Lemma coerce_then_sort_missing_last (c : string) (df out : DataFrame) :
  coerce_then_sort c [c] [true] df = Ok out → missing_last c (rows out).
Proof.
  intros (_ & _ & Hsorted)%coerce_then_sort_spec.
  by eapply sorted_by_missing_last, sorted_first_key.
Qed.





(** ** Saving a table *)

Section saving.
Context `{!Host}.

Lemma build_table_shapes :
  build_table1 = table_job "table1_model_performance.csv" build_table1_frame
                   "table1_model_performance" ∧
  build_table2 = table_job "table2_hardware_speeds.csv" build_table2_frame
                   "table2_hardware_speeds" ∧
  build_table3 = table_job "table3_datasets.csv" build_table3_frame
                   "table3_datasets" ∧
  build_table4 = table_job "table4_challenges.csv" Ok "table4_challenges" ∧
  build_table5 = table_job "table5_future_research.csv" Ok
                   "table5_future_research" ∧
  build_table6 = table_job "table6_implementation_phases.csv" Ok
                   "table6_implementation_phases" ∧
  build_table7 = table_job "table7_evolution_technologies.csv" build_table7_frame
                   "table7_evolution_technologies".
Proof. split_and!; reflexivity. Qed.

Lemma out_paths_differ (name : string) :
  OUT ++ [name +:+ ".tex"] ≠ OUT ++ [name +:+ ".csv"].
Proof.
  intros Heq%app_inv_head. injection Heq as Heq.
  apply (inj (String.app name)) in Heq. discriminate.
Qed.

Lemma raw_out_differ (f n : string) : RAW ++ [f] ≠ OUT ++ [n].
Proof.
  unfold RAW, OUT. rewrite <- !(assoc_L (++)).
  intros Heq%app_inv_head. discriminate.
Qed.

(** What [save_table] does, case by case. *)
Lemma save_table_run (df : DataFrame) (name : string) (w : World) :
  let csv_path := OUT ++ [name +:+ ".csv"] in
  let tex_path := OUT ++ [name +:+ ".tex"] in
  let saved := "Saved " +:+ name +:+ " -> " +:+ path_str csv_path in
  let failed e := "Could not write LaTeX for " +:+ name +:+ ": " +:+ exn_str e in
  let files1 := <[csv_path := csv_render df]> (files w) in
  save_table df name w =
  if bool_decide (csv_path ∈ denied w) then
    (w, Raise (OSError ("Permission denied: " +:+ path_str csv_path)))
  else if bool_decide (tex_path ∈ denied w) then
    (mkWorld files1 (denied w)
       (stdout w ++ [failed (OSError ("Permission denied: " +:+ path_str tex_path)); saved]),
     Ok ())
  else
    match latex_render df with
    | Ok tex =>
        (mkWorld (<[tex_path := tex]> (<[tex_path := ""]> files1)) (denied w)
           (stdout w ++ [saved]), Ok ())
    | Raise e =>
        (mkWorld (<[tex_path := ""]> files1) (denied w)
           (stdout w ++ [failed e; saved]), Ok ())
    end.
Proof.
  intros csv_path tex_path saved failed files1.
  unfold save_table, to_csv, try_except, open_w, file_write, print, lift.
  unfold mbind, io_bind. fold csv_path tex_path. simpl.
  case_bool_decide; [done|]. simpl.
  case_bool_decide; simpl.
  { by rewrite <- (assoc_L (++)). }
  destruct (latex_render df) as [tex|e]; simpl.
  - by rewrite lookup_insert_eq.
  - by rewrite <- (assoc_L (++)).
Qed.

Lemma save_table_Ok (df : DataFrame) (name : string) (w w' : World) :
  save_table df name w = (w', Ok ()) →
  files w' !! (OUT ++ [name +:+ ".csv"]) = Some (csv_render df).
Proof.
  rewrite save_table_run. pose proof (out_paths_differ name) as Hne.
  repeat case_match; intros [= <-]; simpl;
    by rewrite ?(lookup_insert_ne _ _ _ _ Hne), lookup_insert_eq.
Qed.

(** C6. In [save_table] an exception of the CSV write leaves [save_table]
    as it was raised; once the CSV is written, [save_table] returns
    normally whatever the LaTeX write does, and when the LaTeX file cannot
    be opened or the rendering raises, the exception is printed and the
    run goes on to the final message. *)
Theorem save_table_failures (df : DataFrame) (name : string) (w : World) :
  let csv_path := OUT ++ [name +:+ ".csv"] in
  let tex_path := OUT ++ [name +:+ ".tex"] in
  let saved := "Saved " +:+ name +:+ " -> " +:+ path_str csv_path in
  (∀ w1 e, to_csv df csv_path w = (w1, Raise e) →
           save_table df name w = (w1, Raise e)) ∧
  (∀ w1, to_csv df csv_path w = (w1, Ok ()) →
     ∃ w', save_table df name w = (w', Ok ()) ∧
       files w' !! csv_path = Some (csv_render df) ∧
       last (stdout w') = Some saved ∧
       (tex_path ∈ denied w ∨ (∃ e, latex_render df = Raise e) →
        ∃ e, stdout w' =
             stdout w ++ ["Could not write LaTeX for " +:+ name +:+ ": " +:+ exn_str e;
                          saved])).
Proof.
  intros csv_path tex_path saved. split.
  - intros w1 e. rewrite save_table_run. unfold to_csv.
    fold csv_path. case_bool_decide; [|done]. by intros [= <- <-].
  - intros w1. unfold to_csv. fold csv_path.
    case_bool_decide as Hcsv; [done|]. intros _.
    destruct (save_table df name w) as [w' r] eqn:Hrun.
    pose proof Hrun as Hrun'. rewrite save_table_run in Hrun'.
    fold csv_path tex_path saved in Hrun'.
    rewrite bool_decide_eq_false_2 in Hrun' by done.
    assert (r = Ok ()) as ->.
    { revert Hrun'. repeat case_match; by intros [= _ <-]. }
    exists w'. split; [done|]. split; [by eapply save_table_Ok|].
    revert Hrun'. case_bool_decide as Htex.
    + intros [= <-]. simpl. split; [by rewrite last_app|].
      intros _. by exists (OSError ("Permission denied: " +:+ path_str tex_path)).
    + destruct (latex_render df) as [tex|e] eqn:Htexr; intros [= <-]; simpl.
      * split; [by rewrite last_app|]. intros [?|[e [=]]]. done.
      * split; [by rewrite last_app|]. intros _. by exists e.
Qed.
End saving.

(** C6, run: the CSV path is write-protected; the LaTeX path is
    write-protected; the rendering raises (a frame without columns). *)
Lemma save_table_failures_run :
  @save_table plain_host eras_frame "eras" (world_with [] [eras_csv]) =
    (world_with [] [eras_csv],
     Raise (OSError "Permission denied: /repo/output/tables/eras.csv")) ∧
  (∃ w', @save_table plain_host eras_frame "eras" (world_with [] [eras_tex]) = (w', Ok ()) ∧
     files w' !! eras_csv = Some (plain_csv_render eras_frame) ∧
     ∃ e, stdout w' =
          ["Could not write LaTeX for eras: " +:+ exn_str e;
           "Saved eras -> /repo/output/tables/eras.csv"]) ∧
  (∃ w', @save_table plain_host (frame_of [] []) "eras" (world_with [] []) = (w', Ok ()) ∧
     ∃ e, stdout w' =
          ["Could not write LaTeX for eras: " +:+ exn_str e;
           "Saved eras -> /repo/output/tables/eras.csv"]).
Proof.
  split_and!.
  - apply (@save_table_failures plain_host eras_frame "eras" (world_with [] [eras_csv])).
    reflexivity.
  - destruct (@save_table_failures plain_host eras_frame "eras" (world_with [] [eras_tex]))
      as [_ Hok].
    destruct (Hok _ eq_refl) as (w' & Hrun & Hcsv & _ & Hlog).
    exists w'. split; [exact Hrun|]. split; [exact Hcsv|].
    apply Hlog. left. vm_compute. reflexivity.
  - destruct (@save_table_failures plain_host (frame_of [] []) "eras" (world_with [] []))
      as [_ Hok].
    destruct (Hok _ eq_refl) as (w' & Hrun & _ & _ & Hlog).
    exists w'. split; [exact Hrun|].
    apply Hlog. right. by eexists.
Defined.

(** ** The evolution-technologies frame *)

Lemma drop_columns_Ok (df out : DataFrame) (cs : list string) :
  drop_columns df cs = Ok out →
  columns out = filter (λ c, c ∉ cs) (columns df) ∧
  rows out = (λ r, foldr delete r cs) <$> rows df.
Proof. unfold drop_columns. case_match; [|done]. by intros [= <-]. Qed.

Lemma setitem_Ok (df df' : DataFrame) (c : string) (s : Series) :
  setitem df c s = Ok df' →
  length s = length (rows df) ∧
  rows df' = zip_with (λ r v, <[c := v]> r) (rows df) s.
Proof. unfold setitem. case_bool_decide; [|done]. by intros [= <-]. Qed.

Section eras.
Context `{!Host}.

(** The steps of [build_table7_frame], named. *)
Lemma build_table7_frame_Ok (df out : DataFrame) :
  build_table7_frame df = Ok out →
  ∃ ext num df1 df2,
    "Era" ∈ columns df ∧
    str_extract era_pattern (astype_str (row_get "Era" <$> rows df)) = Ok ext ∧
    astype_float ext = Ok num ∧
    setitem df "era_numeric" num = Ok df1 ∧
    sort_values df1 ["era_numeric"] [true] = Ok df2 ∧
    drop_columns df2 ["era_numeric"] = Ok out.
Proof.
  unfold build_table7_frame.
  intros (era & [Hera ->]%getitem_Ok & H1)%bind_Ok.
  apply bind_Ok in H1 as (ext & Hext & H2).
  apply bind_Ok in H2 as (num & Hnum & H3).
  apply bind_Ok in H3 as (df1 & Hdf1 & H4).
  apply bind_Ok in H4 as (df2 & Hdf2 & Hout).
  by exists ext, num, df1, df2.
Qed.


(** The helper column is gone from the saved frame. *)
Lemma build_table7_helper_absent (df out : DataFrame) :
  build_table7_frame df = Ok out →
  ("era_numeric" ∉ columns out) ∧
  Forall (λ r : Row, r !! "era_numeric" = None) (rows out).
Proof.
  intros (ext & num & df1 & df2 & _ & _ & _ & _ & _ & Hout)%build_table7_frame_Ok.
  apply drop_columns_Ok in Hout as [-> ->]. split.
  - intros [Hnot _]%list_elem_of_filter. apply Hnot. by left.
  - apply Forall_fmap, Forall_forall. intros r _. simpl. apply lookup_delete_eq.
Qed.
End eras.

(** ** What the pattern of line 67 matches *)

Lemma match_here_literal (p : list atom) (s m : string) :
  Forall (λ t, t ≠ Digit) p → match_here p s = Some m → m = atoms_text p.
Proof.
  intros Hp. revert s m. induction Hp as [|t p Ht Hp IH]; intros s m; simpl.
  - by intros [= <-].
  - destruct s as [|a s]; [done|]. destruct t as [c|]; [|done]. simpl.
    case_bool_decide as Hac; [|done]. subst c.
    destruct (match_here p s) as [m'|] eqn:Hm'; [|done].
    intros [= <-]. f_equal. by eapply IH.
Qed.

Lemma re_search_literal (p : list atom) (s m : string) :
  Forall (λ t, t ≠ Digit) p → re_search p s = Some m → m = atoms_text p.
Proof.
  intros Hp. induction s as [|a s IH]; simpl.
  - destruct (match_here p "") eqn:Hm; [|done].
    intros [= <-]. by eapply match_here_literal.
  - destruct (match_here p (String a s)) eqn:Hm; [|done].
    intros [= <-]. by eapply match_here_literal.
Qed.

(** The pattern as written stands for a backslash followed by four letters
    d; the pattern with one backslash stands for four digits. *)
Lemma era_pattern_atoms :
  re_compile era_pattern = Some [Lit "\"; Lit "d"; Lit "d"; Lit "d"; Lit "d"]%char ∧
  re_compile "(\d{4})" = Some [Digit; Digit; Digit; Digit].
Proof. split; reflexivity. Qed.

Lemma str_extract_era_pattern (s : Series) :
  ∃ ext, str_extract era_pattern s = Ok ext ∧
         length ext = length s ∧
         Forall (λ c, c = NaN ∨ c = Str "\dddd") ext.
Proof.
  unfold str_extract. rewrite (proj1 era_pattern_atoms).
  eexists. split; [done|]. split; [by rewrite length_fmap|].
  apply Forall_fmap, Forall_forall. intros [|q|t] _; simpl; auto.
  destruct (re_search _ t) as [m|] eqn:Hm; [|by left].
  right. f_equal. eapply re_search_literal in Hm; [done|].
  repeat constructor; discriminate.
Qed.

Lemma astype_float_all_missing (ext num : Series) :
  Forall (λ c, c = NaN ∨ c = Str "\dddd") ext →
  astype_float ext = Ok num → num = ext ∧ Forall (λ c, c = NaN) ext.
Proof.
  intros Hext Hnum%mapM_Ok. induction Hnum as [|c c' ext num Hc Hnum IH].
  - by split.
  - apply Forall_cons in Hext as [[->| ->] Hext]; [|done].
    injection Hc as <-. destruct (IH Hext) as [-> ?]. split; [done|by constructor].
Qed.

Section eras_order.
Context `{!Host}.

(** [build_table7_frame] never moves a row: whenever it returns, every
    extracted year is missing, and the saved rows are the rows read, in the
    order read, without the helper cell. *)
Lemma build_table7_frame_keeps_order (df out : DataFrame) :
  build_table7_frame df = Ok out →
  rows out = delete "era_numeric" <$> rows df.
Proof.
  intros (ext & num & df1 & df2 & _ & Hext & Hnum & Hdf1 & Hdf2 & Hout)%build_table7_frame_Ok.
  destruct (str_extract_era_pattern (astype_str (row_get "Era" <$> rows df)))
    as (ext' & Hext' & Hlen & Hall).
  rewrite Hext in Hext'. injection Hext' as <-.
  apply astype_float_all_missing in Hnum as [-> Hnan]; [|done].
  apply setitem_Ok in Hdf1 as [Hlen1 Hrows1].
  apply sort_values_Ok in Hdf2 as (_ & Hrows2 & _).
  apply drop_columns_Ok in Hout as [_ ->]. rewrite Hrows2, Hrows1.
  rewrite (stable_sort_related _ (λ r, row_get "era_numeric" r = NaN)).
  - clear -Hlen1 Hnan. revert ext Hlen1 Hnan.
    induction (rows df) as [|r l IH]; intros [|c ext] Hlen Hnan; simpl in *; try done.
    apply Forall_cons in Hnan as [-> Hnan].
    rewrite delete_insert_eq. f_equal. apply IH; [lia|done].
  - intros r1 r2 _ H2. simpl. rewrite H2.
    by destruct (row_get "era_numeric" r1).
  - clear -Hnan. revert ext Hnan.
    induction (rows df) as [|r l IH]; intros [|c ext] Hnan; simpl; try done.
    apply Forall_cons in Hnan as [-> Hnan]. constructor; [|by apply IH].
    apply row_get_insert.
Qed.
End eras_order.

Section eras_runs.
Context `{!Host}.

(** C1, at a failing input. Two eras, the later one first: the pattern of
    line 67 extracts no year from either (the pattern with a single
    backslash would extract 2010 and 1990), so nothing is sorted and the
    rows are saved as read, 2010s before 1990s.  The helper column is
    absent. *)
Theorem build_table7_eras_not_sorted :
  getitem eras_frame "Era" = Ok [Str "2010s"; Str "1990s"] ∧
  str_extract era_pattern [Str "2010s"; Str "1990s"] = Ok [NaN; NaN] ∧
  str_extract "(\d{4})" [Str "2010s"; Str "1990s"] = Ok [Str "2010"; Str "1990"] ∧
  build_table7_frame eras_frame = Ok eras_frame ∧
  "era_numeric" ∉ columns eras_frame.
Proof.
  split_and!; try reflexivity.
  eapply bool_decide_eq_false_1. reflexivity.
Qed.

(** C8, at a failing input. One era cell holds a backslash and four
    letters d: the pattern of line 67 matches it, the cast to float raises
    [ValueError], and [build_table7_frame] returns no frame. *)
Theorem build_table7_backslash_aborts :
  str_extract era_pattern [Str "1990s"; Str "see \dddd"] = Ok [NaN; Str "\dddd"] ∧
  build_table7_frame eras_backslash_frame =
    Raise (ValueError "could not convert string to float: \dddd").
Proof. split; reflexivity. Qed.
End eras_runs.

(** The same abort on files: the run of [build_table7] raises and writes
    nothing. *)
Lemma build_table7_backslash_run :
  @build_table7 plain_host eras_backslash_world =
  (eras_backslash_world,
   Raise (ValueError "could not convert string to float: \dddd")).
Proof. reflexivity. Qed.

(** ** Numeric coercion never stops a frame *)

Lemma coerce_column_step (df : DataFrame) (c : string) (k : DataFrame → result DataFrame) :
  c ∈ columns df →
  (s ← getitem df c; s ← to_numeric errors_coerce s; df ← setitem df c s; k df) =
  k (map_column c coerced df).
Proof.
  intros Hc. rewrite (proj2 (getitem_Ok df c _) (conj Hc eq_refl)). simpl.
  rewrite to_numeric_coerce. simpl. by rewrite setitem_column.
Qed.

(** Whatever the cells hold, the frames of the first three tables and of
    the second figure are built as soon as the named columns exist (and the
    dataset and hardware names can be ordered). *)
Lemma coercing_frames_succeed (df : DataFrame) :
  ("Accuracy (%)" ∈ columns df → "Dataset" ∈ columns df →
   sortable (row_get "Dataset" <$> rows df) →
   ∃ out, build_table1_frame df = Ok out) ∧
  ("Inference Speed (img/s)" ∈ columns df → "Hardware" ∈ columns df →
   sortable (row_get "Hardware" <$> rows df) →
   ∃ out, build_table2_frame df = Ok out) ∧
  ("Year" ∈ columns df → ∃ out, build_table3_frame df = Ok out) ∧
  ("year" ∈ columns df → "accuracy_pct" ∈ columns df →
   "defect_size_nm" ∈ columns df →
   ∃ out, make_figure2_frame df = Ok out).
Proof.
  split_and!.
  - intros Hacc Hds Hsort. rewrite build_table1_frame_shape.
    apply coerce_then_sort_succeeds; [done..|].
    constructor; [by split; [|right]|]. constructor; [by split; [|left]|constructor].
  - intros Hspeed Hhw Hsort. rewrite build_table2_frame_shape.
    apply coerce_then_sort_succeeds; [done..|].
    constructor; [by split; [|right]|]. constructor; [by split; [|left]|constructor].
  - intros Hyear. rewrite build_table3_frame_shape.
    apply coerce_then_sort_succeeds; [done..|].
    constructor; [by split; [|left]|constructor].
  - intros Hyear Hacc Hsize. unfold make_figure2_frame.
    rewrite (coerce_column_step df "year") by done.
    rewrite (coerce_column_step _ "accuracy_pct") by done.
    rewrite (coerce_column_step _ "defect_size_nm") by done.
    eexists. apply sort_values_succeeds; [done|].
    repeat constructor; [done|]. simpl. rewrite <- !list_fmap_compose.
    unfold sortable. apply orb_True. left. apply Is_true_true, forallb_forall.
    intros x (r & <- & _)%in_map_iff. simpl.
    rewrite !row_get_insert_ne, row_get_insert by done.
    apply Is_true_true, coerced_numeric.
Qed.

(** ** Table builders on files *)

Section jobs.
Context `{!Host}.

Lemma table_job_Ok (input name : string) (rule : DataFrame → result DataFrame)
    (w w' : World) :
  table_job input rule name w = (w', Ok ()) →
  ∃ text df out,
    files w !! (RAW ++ [input]) = Some text ∧
    csv_parse text = Ok df ∧
    rule df = Ok out ∧
    save_table out name w = (w', Ok ()).
Proof.
  unfold table_job, read_csv, lift, mbind, io_bind.
  destruct (files w !! (RAW ++ [input])) as [text|] eqn:Htext; [|done].
  destruct (csv_parse text) as [df|] eqn:Hdf; [|done].
  destruct (rule df) as [out|] eqn:Hout; [|done].
  intros Hsave. by exists text, df, out.
Qed.



End jobs.


(** ** Running a builder again *)

Section reruns.
Context `{!Host}.

Lemma lookup_write_all (ws : list (string * string)) (fs : gmap Path string) (p : Path) :
  write_all ws fs !! p =
  match write_all ws ∅ !! p with Some text => Some text | None => fs !! p end.
Proof.
  revert fs. induction ws as [|[n text] ws IH]; intros fs; simpl; [done|].
  rewrite (IH (<[_ := _]> fs)), (IH (<[_ := _]> ∅)).
  destruct (write_all ws ∅ !! p); [done|].
  destruct (decide (OUT ++ [n] = p)) as [->|Hne].
  - by rewrite !lookup_insert_eq.
  - by rewrite !lookup_insert_ne, lookup_empty.
Qed.


Lemma write_all_app (ws1 ws2 : list (string * string)) (fs : gmap Path string) :
  write_all (ws1 ++ ws2) fs = write_all ws2 (write_all ws1 fs).
Proof. revert fs. induction ws1 as [|[n text] ws1 IH]; intros fs; simpl; auto. Qed.

(** Writes go to the output directory: the raw files stay as they are. *)
Lemma lookup_write_all_raw (ws : list (string * string)) (fs : gmap Path string)
    (f : string) :
  write_all ws fs !! (RAW ++ [f]) = fs !! (RAW ++ [f]).
Proof.
  revert fs. induction ws as [|[n text] ws IH]; intros fs; simpl; [done|].
  rewrite IH. apply lookup_insert_ne. intros Heq. by eapply raw_out_differ.
Qed.

Lemma same_inputs_write_all (w : World) (ws : list (string * string)) (out : list string) :
  same_inputs w (mkWorld (write_all ws (files w)) (denied w) out).
Proof. split; [done|]. intros f. simpl. by rewrite lookup_write_all_raw. Qed.

Lemma same_inputs_trans (w1 w2 w3 : World) :
  same_inputs w1 w2 → same_inputs w2 w3 → same_inputs w1 w3.
Proof.
  intros [Hd1 Hf1] [Hd2 Hf2]. split; [congruence|].
  intros f. by rewrite Hf1.
Qed.

Lemma same_inputs_sym (w1 w2 : World) : same_inputs w1 w2 → same_inputs w2 w1.
Proof. intros [Hd Hf]. by split. Qed.


Lemma tidy_bind (m1 m2 : io unit) : tidy m1 → tidy m2 → tidy (m1;; m2).
Proof.
  intros H1 H2 w1 w2 Hsame.
  destruct (H1 w1 w2 Hsame) as (ws1 & r1 & o1 & o2 & Hrun1 & Hrun2).
  unfold mbind, io_bind. rewrite Hrun1, Hrun2.
  destruct r1 as [[]|e]; [|by exists ws1, (Raise e), o1, o2].
  destruct (H2 (mkWorld (write_all ws1 (files w1)) (denied w1) o1)
               (mkWorld (write_all ws1 (files w2)) (denied w2) o2))
    as (ws2 & r2 & o1' & o2' & Hrun1' & Hrun2').
  { eapply same_inputs_trans; [apply same_inputs_sym, same_inputs_write_all|].
    eapply same_inputs_trans; [done|apply same_inputs_write_all]. }
  exists (ws1 ++ ws2), r2, o1', o2'. rewrite !write_all_app.
  by rewrite Hrun1', Hrun2'.
Qed.
Lemma world_eta (w : World) : w = mkWorld (files w) (denied w) (stdout w).
Proof. by destruct w. Qed.

Lemma tidy_save_table (df : DataFrame) (name : string) : tidy (save_table df name).
Proof.
  intros w1 w2 [Hden Hfiles]. rewrite !save_table_run, <- Hden.
  case_bool_decide.
  { exists [], (Raise (OSError ("Permission denied: " +:+
                                path_str (OUT ++ [name +:+ ".csv"])))),
      (stdout w1), (stdout w2).
    simpl. by rewrite Hden at 2; rewrite <- !world_eta. }
  case_bool_decide.
  { by eexists [(name +:+ ".csv", csv_render df)], (Ok ()), _, _. }
  destruct (latex_render df) as [tex|e].
  - by eexists [(name +:+ ".csv", csv_render df); (name +:+ ".tex", "");
                (name +:+ ".tex", tex)], (Ok ()), _, _.
  - by eexists [(name +:+ ".csv", csv_render df); (name +:+ ".tex", "")],
      (Ok ()), _, _.
Qed.

Lemma tidy_table_job (input name : string) (rule : DataFrame → result DataFrame) :
  tidy (table_job input rule name).
Proof.
  intros w1 w2 Hsame. pose proof Hsame as [Hden Hfiles].
  unfold table_job, read_csv, lift, mbind, io_bind. rewrite <- (Hfiles input).
  destruct (files w1 !! (RAW ++ [input])) as [text|].
  - destruct (csv_parse text) as [df|e].
    + destruct (rule df) as [out|e].
      * by apply tidy_save_table.
      * exists [], (Raise e), (stdout w1), (stdout w2).
        simpl. by rewrite <- !world_eta.
    + exists [], (Raise e), (stdout w1), (stdout w2).
      simpl. by rewrite <- !world_eta.
  - exists [], (Raise (FileNotFoundError (path_str (RAW ++ [input])))),
      (stdout w1), (stdout w2).
    simpl. by rewrite <- !world_eta.
Qed.


Lemma tidy_builds :
  tidy build_table1 ∧ tidy build_table2 ∧ tidy build_table3 ∧ tidy build_table4 ∧
  tidy build_table5 ∧ tidy build_table6 ∧ tidy build_table7.
Proof.
  destruct build_table_shapes as (-> & -> & -> & -> & -> & -> & ->).
  split_and!; apply tidy_table_job.
Qed.

Lemma tidy_main : tidy main.
Proof.
  destruct tidy_builds as (H1 & H2 & H3 & H4 & H5 & H6 & H7).
  unfold main. repeat (apply tidy_bind; [done|]). done.
Qed.

End reruns.


(** ** When the evolution-technologies frame is built *)

Section eras_success.
Context `{!Host}.

(** With an [Era] column none of whose texts holds a backslash followed by
    four letters d, [build_table7_frame] returns the rows as read. *)
Lemma build_table7_frame_succeeds (df : DataFrame) :
  "Era" ∈ columns df →
  Forall (λ r, re_search [Lit "\"; Lit "d"; Lit "d"; Lit "d"; Lit "d"]%char
                 (str_of_cell (row_get "Era" r)) = None) (rows df) →
  ∃ out, build_table7_frame df = Ok out ∧
         rows out = delete "era_numeric" <$> rows df.
Proof.
  intros Hera Hnone.
  assert (∃ out, build_table7_frame df = Ok out) as [out Hout];
    [|exists out; split; [done|by apply build_table7_frame_keeps_order]].
  unfold build_table7_frame.
  rewrite (proj2 (getitem_Ok df "Era" _) (conj Hera eq_refl)). simpl.
  unfold astype_str. rewrite <- !list_fmap_compose.
  rewrite (list_fmap_ext _ (λ _, NaN) (rows df)); last first.
  { intros i r Hr. simpl. rewrite Forall_forall in Hnone.
    by rewrite Hnone by by eapply list_elem_of_lookup_2. }
  assert (astype_float ((λ _, NaN) <$> rows df) = Ok ((λ _, NaN) <$> rows df)) as ->.
  { apply mapM_Ok, Forall2_fmap, Forall_Forall2_diag, Forall_forall. done. }
  simpl.
  unfold setitem. rewrite length_fmap, bool_decide_eq_true_2 by done. simpl.
  rewrite sort_values_succeeds; [simpl| done |].
  - unfold drop_columns. simpl. rewrite filter_cons_False, filter_nil; [by eexists|].
    intros Hnot. apply Hnot. case_bool_decide; [done|].
    apply elem_of_app. right. by left.
  - repeat constructor; simpl.
    + case_bool_decide; [done|]. apply elem_of_app. right. by left.
    + unfold sortable. apply orb_True. left. apply Is_true_true, forallb_forall.
      intros c (r & <- & Hr)%in_map_iff. apply list_elem_of_In in Hr.
      apply list_elem_of_lookup in Hr as [i Hi].
      apply lookup_zip_with_Some in Hi as (r0 & v & -> & _ & Hv).
      apply list_lookup_fmap_Some in Hv as (? & -> & _).
      by rewrite row_get_insert.
Qed.
End eras_success.

(** * Further properties *)

(** ** Order kept by the sort *)

Lemma insert_sorted_filter {A} (leb : A → A → bool) (P : A → Prop)
    `{∀ x, Decision (P x)} (x : A) (l : list A) :
  (∀ x y, P x → P y → leb x y = true) →
  filter P (insert_sorted leb x l) = filter P (x :: l).
Proof.
  intros Hrel. induction l as [|y l IH]; simpl; [done|].
  destruct (leb x y) eqn:Hxy; [done|].
  rewrite filter_cons, IH, !filter_cons.
  destruct (decide (P y)) as [Hy|Hy], (decide (P x)) as [Hx|Hx]; try done.
  by rewrite Hrel in Hxy.
Qed.

(** The sort is stable: elements that compare equal keep their order. *)
Lemma stable_sort_filter {A} (leb : A → A → bool) (P : A → Prop)
    `{∀ x, Decision (P x)} (l : list A) :
  (∀ x y, P x → P y → leb x y = true) →
  filter P (stable_sort leb l) = filter P l.
Proof.
  intros Hrel. induction l as [|x l IH]; simpl; [done|].
  rewrite insert_sorted_filter, !filter_cons, IH by done. done.
Qed.

Lemma rows_leb_same_keys (by_ : list string) (ascending : list bool)
    (vs : list cell) (r1 r2 : Row) :
  (λ c, row_get c r1) <$> by_ = vs → (λ c, row_get c r2) <$> by_ = vs →
  rows_leb (zip by_ ascending) r1 r2 = true.
Proof.
  revert ascending vs. induction by_ as [|c by_ IH]; intros [|a asc] vs; simpl; try done.
  intros <- [= H1 H2]. rewrite H1.
  pose proof (key_leb_refl a (row_get c r1)) as Hrefl.
  apply Is_true_true in Hrefl. rewrite Hrefl. by eapply IH.
Qed.

Lemma sort_values_same_order (df out : DataFrame) (by_ : list string)
    (ascending : list bool) (vs : list cell) :
  sort_values df by_ ascending = Ok out →
  same_order_among by_ vs (rows df) (rows out).
Proof.
  intros (_ & -> & _)%sort_values_Ok. unfold same_order_among, rows_with.
  apply stable_sort_filter. intros r1 r2. apply rows_leb_same_keys.
Qed.

(** X1. [build_table2] replaces every speed cell by the number it stands
    for, or by missing; the rows it saves are in ascending order of hardware
    name, and the rows of each hardware are in descending order of speed
    (missing speeds last). *)
Theorem build_table2_sorted (df out : DataFrame) :
  build_table2_frame df = Ok out →
  rows out ≡ₚ rows (map_column "Inference Speed (img/s)" coerced df) ∧
  sorted_by "Hardware" true (rows out) ∧
  ∀ h, sorted_by "Inference Speed (img/s)" false (group "Hardware" h (rows out)).
Proof.
  rewrite build_table2_frame_shape.
  intros (_ & Hperm & Hsorted)%coerce_then_sort_spec. simpl in Hsorted.
  split_and!; [done|by eapply sorted_first_key|].
  intros h. eapply sorted_first_key, sorted_group, Hsorted.
Qed.

(** X1, run on [hardware_frame]. *)
Lemma build_table2_sorted_run :
  ∃ out, build_table2_frame hardware_frame = Ok out ∧
    getitem out "Model" = Ok [Str "WaferNet"; Str "ViT-B"; Str "ViT-B"] ∧
    sorted_by "Hardware" true (rows out) ∧
    ∀ h, sorted_by "Inference Speed (img/s)" false (group "Hardware" h (rows out)).
Proof.
  eexists. split; [vm_compute; reflexivity|]. split; [reflexivity|].
  eapply (build_table2_sorted hardware_frame). vm_compute. reflexivity.
Defined.

(** X2. [build_table3] saves the rows in ascending order of year, every
    year cell being a number or missing. *)
Theorem build_table3_sorted (df out : DataFrame) :
  build_table3_frame df = Ok out →
  sorted_by "Year" true (rows out) ∧
  Forall (λ r, isna (row_get "Year" r) || is_num (row_get "Year" r)) (rows out).
Proof.
  rewrite build_table3_frame_shape.
  intros (_ & Hperm & Hsorted)%coerce_then_sort_spec. simpl in Hsorted.
  split; [by eapply sorted_first_key|].
  rewrite Hperm. apply coerced_column_numeric.
Qed.

(** X2, run on [datasets_frame]. *)
Lemma build_table3_sorted_run :
  ∃ out, build_table3_frame datasets_frame = Ok out ∧
    getitem out "Dataset" = Ok [Str "WM-811K"; Str "MixedWM38"; Str "In-house"] ∧
    sorted_by "Year" true (rows out).
Proof.
  eexists. split; [vm_compute; reflexivity|]. split; [reflexivity|].
  eapply (build_table3_sorted datasets_frame). vm_compute. reflexivity.
Defined.

Lemma coerce_then_sort_same_order (c : string) (by_ : list string)
    (ascending : list bool) (df out : DataFrame) (vs : list cell) :
  coerce_then_sort c by_ ascending df = Ok out →
  same_order_among by_ vs (rows (map_column c coerced df)) (rows out).
Proof.
  intros [_ Hsort]%coerce_then_sort_Ok. by eapply sort_values_same_order.
Qed.

(** X3. The two-key sorts of [build_table1] and [build_table2] are stable:
    rows with the same name and the same numeric key are saved in the order
    in which they were read. *)
Theorem two_key_sorts_stable :
  (∀ df out d a, build_table1_frame df = Ok out →
     same_order_among ["Dataset"; "Accuracy (%)"] [d; a]
       (rows (map_column "Accuracy (%)" coerced df)) (rows out)) ∧
  (∀ df out h v, build_table2_frame df = Ok out →
     same_order_among ["Hardware"; "Inference Speed (img/s)"] [h; v]
       (rows (map_column "Inference Speed (img/s)" coerced df)) (rows out)).
Proof.
  split; intros df out k1 k2 Hout.
  - rewrite build_table1_frame_shape in Hout.
    by eapply coerce_then_sort_same_order.
  - rewrite build_table2_frame_shape in Hout.
    by eapply coerce_then_sort_same_order.
Qed.

(** X3, run: the two A100 rows of [hardware_frame] without a parsed speed
    and the rows of MixedWM38 with accuracy 95.5. *)
Lemma two_key_sorts_stable_run :
  (∃ out, build_table1_frame models_frame = Ok out ∧
     same_order_among ["Dataset"; "Accuracy (%)"] [Str "MixedWM38"; Num (191 # 2)]
       (rows (map_column "Accuracy (%)" coerced models_frame)) (rows out)) ∧
  (∃ out, build_table2_frame hardware_frame = Ok out ∧
     same_order_among ["Hardware"; "Inference Speed (img/s)"] [Str "A100"; NaN]
       (rows (map_column "Inference Speed (img/s)" coerced hardware_frame)) (rows out)).
Proof.
  destruct two_key_sorts_stable as [H1 H2]. split.
  - eexists. split; [vm_compute; reflexivity|].
    apply (H1 models_frame). vm_compute. reflexivity.
  - eexists. split; [vm_compute; reflexivity|].
    apply (H2 hardware_frame). vm_compute. reflexivity.
Defined.

(** X4. In [build_table3] the rows whose year is missing are saved, after
    the others, in the order in which they were read. *)
Theorem build_table3_missing_keep_order (df out : DataFrame) :
  build_table3_frame df = Ok out →
  same_order_among ["Year"] [NaN] (rows (map_column "Year" coerced df)) (rows out) ∧
  missing_last "Year" (rows out).
Proof.
  rewrite build_table3_frame_shape. intros Hout. split.
  - by eapply coerce_then_sort_same_order.
  - by eapply coerce_then_sort_missing_last.
Qed.

(** X4, run on [datasets_frame]. *)
Lemma build_table3_missing_keep_order_run :
  ∃ out, build_table3_frame datasets_frame = Ok out ∧
    same_order_among ["Year"] [NaN]
      (rows (map_column "Year" coerced datasets_frame)) (rows out) ∧
    missing_last "Year" (rows out).
Proof.
  eexists. split; [vm_compute; reflexivity|].
  apply (build_table3_missing_keep_order datasets_frame). vm_compute. reflexivity.
Defined.

(** ** Missing columns *)

Lemma sort_values_KeyError (df : DataFrame) (c : string) (by_ : list string)
    (a : bool) (ascending : list bool) :
  length by_ = length ascending → c ∉ columns df →
  sort_values df (c :: by_) (a :: ascending) = Raise (KeyError c).
Proof.
  intros Hlen Hc. unfold sort_values. simpl.
  rewrite bool_decide_eq_true_2 by (by rewrite Hlen).
  by rewrite getitem_Raise.
Qed.

Lemma coerce_then_sort_KeyError (c : string) (by_ : list string)
    (ascending : list bool) (df : DataFrame) :
  c ∉ columns df → coerce_then_sort c by_ ascending df = Raise (KeyError c).
Proof. intros Hc. unfold coerce_then_sort. by rewrite getitem_Raise. Qed.

Lemma coerce_then_sort_KeyError_key (c g : string) (by_ : list string)
    (a : bool) (ascending : list bool) (df : DataFrame) :
  c ∈ columns df → g ∉ columns df → length by_ = length ascending →
  coerce_then_sort c (g :: by_) (a :: ascending) df = Raise (KeyError g).
Proof.
  intros Hc Hg Hlen. unfold coerce_then_sort.
  rewrite (coerce_column_step df c (λ df, sort_values df _ _)) by done.
  by apply sort_values_KeyError.
Qed.

Section missing_columns.
Context `{!Host}.

(** X5. A frame without the column a builder coerces, extracts from or
    sorts by makes the builder raise [KeyError] with the name of the first
    such column it reaches. *)
Theorem missing_column_raises (df : DataFrame) :
  ("Accuracy (%)" ∉ columns df →
   build_table1_frame df = Raise (KeyError "Accuracy (%)")) ∧
  ("Accuracy (%)" ∈ columns df → "Dataset" ∉ columns df →
   build_table1_frame df = Raise (KeyError "Dataset")) ∧
  ("Inference Speed (img/s)" ∉ columns df →
   build_table2_frame df = Raise (KeyError "Inference Speed (img/s)")) ∧
  ("Inference Speed (img/s)" ∈ columns df → "Hardware" ∉ columns df →
   build_table2_frame df = Raise (KeyError "Hardware")) ∧
  ("Year" ∉ columns df → build_table3_frame df = Raise (KeyError "Year")) ∧
  ("Era" ∉ columns df → build_table7_frame df = Raise (KeyError "Era")) ∧
  ("year" ∉ columns df → make_figure2_frame df = Raise (KeyError "year")) ∧
  ("year" ∈ columns df → "accuracy_pct" ∉ columns df →
   make_figure2_frame df = Raise (KeyError "accuracy_pct")) ∧
  ("year" ∈ columns df → "accuracy_pct" ∈ columns df →
   "defect_size_nm" ∉ columns df →
   make_figure2_frame df = Raise (KeyError "defect_size_nm")).
Proof.
  rewrite build_table1_frame_shape, build_table2_frame_shape,
    build_table3_frame_shape.
  split_and!.
  - apply coerce_then_sort_KeyError.
  - intros. by apply coerce_then_sort_KeyError_key.
  - apply coerce_then_sort_KeyError.
  - intros. by apply coerce_then_sort_KeyError_key.
  - apply coerce_then_sort_KeyError.
  - intros Hera. unfold build_table7_frame. by rewrite getitem_Raise.
  - intros Hyear. unfold make_figure2_frame. by rewrite getitem_Raise.
  - intros Hyear Hacc. unfold make_figure2_frame.
    rewrite (coerce_column_step df "year") by done.
    by rewrite getitem_Raise.
  - intros Hyear Hacc Hsize. unfold make_figure2_frame.
    rewrite (coerce_column_step df "year") by done.
    rewrite (coerce_column_step _ "accuracy_pct") by done.
    by rewrite getitem_Raise.
Qed.
End missing_columns.

(** X5, run: the eras have no accuracy, the models no hardware, year or
    era. *)
Lemma missing_column_raises_run :
  build_table1_frame eras_frame = Raise (KeyError "Accuracy (%)") ∧
  build_table1_frame hardware_frame = Raise (KeyError "Accuracy (%)") ∧
  build_table3_frame models_frame = Raise (KeyError "Year") ∧
  @build_table7_frame plain_host models_frame = Raise (KeyError "Era") ∧
  make_figure2_frame datasets_frame = Raise (KeyError "year").
Proof.
  split_and!.
  - apply (@missing_column_raises plain_host eras_frame).
    eapply bool_decide_eq_false_1. reflexivity.
  - apply (@missing_column_raises plain_host hardware_frame).
    eapply bool_decide_eq_false_1. reflexivity.
  - apply (@missing_column_raises plain_host models_frame).
    eapply bool_decide_eq_false_1. reflexivity.
  - apply (@missing_column_raises plain_host models_frame).
    eapply bool_decide_eq_false_1. reflexivity.
  - apply (@missing_column_raises plain_host datasets_frame).
    eapply bool_decide_eq_false_1. reflexivity.
Defined.

(** ** The evolution-technologies frame, as saved *)

Lemma setitem_columns (df df' : DataFrame) (c : string) (s : Series) :
  setitem df c s = Ok df' →
  columns df' = if bool_decide (c ∈ columns df) then columns df else columns df ++ [c].
Proof. unfold setitem. case_bool_decide; [|done]. by intros [= <-]. Qed.

Lemma filter_all {A} (P : A → Prop) `{∀ x, Decision (P x)} (l : list A) :
  Forall P l → filter P l = l.
Proof.
  induction 1 as [|x l Hx Hl IH]; [done|].
  by rewrite filter_cons_True, IH.
Qed.

Lemma filter_helper_column (cols : list string) (c : string) :
  filter (λ x, x ∉ [c]) (if bool_decide (c ∈ cols) then cols else cols ++ [c]) =
  filter (λ x, x ∉ [c]) cols.
Proof.
  case_bool_decide; [done|].
  rewrite filter_app, filter_cons_False, filter_nil, app_nil_r; [done|].
  intros Hnot. apply Hnot. by left.
Qed.

Section eras_saved.
Context `{!Host}.

(** X6. Whenever the transform of [build_table7] returns, the frame it
    saves has the columns read other than [era_numeric], and the rows read,
    in the order read, without their [era_numeric] cell: a table that has no
    such column is saved as it was read. *)
Theorem build_table7_frame_as_read (df out : DataFrame) :
  build_table7_frame df = Ok out →
  columns out = filter (λ c, c ∉ ["era_numeric"]) (columns df) ∧
  rows out = delete "era_numeric" <$> rows df ∧
  ("era_numeric" ∉ columns df →
   Forall (λ r : Row, r !! "era_numeric" = None) (rows df) → out = df).
Proof.
  intros Hout. pose proof (build_table7_frame_keeps_order _ _ Hout) as Hrows.
  apply build_table7_frame_Ok in Hout
    as (ext & num & df1 & df2 & _ & _ & _ & Hdf1 & Hdf2 & Hout).
  apply setitem_columns in Hdf1. apply sort_values_Ok in Hdf2 as (Hcols2 & _ & _).
  apply drop_columns_Ok in Hout as [Hcols _].
  rewrite Hcols2, Hdf1, filter_helper_column in Hcols.
  split_and!; [done..|]. intros Hnew Hcells.
  destruct out as [ocols orows], df as [dcols drows]. simpl in *. subst. f_equal.
  - apply filter_all, Forall_forall. intros c Hc [->|[]%elem_of_nil]%elem_of_cons.
    done.
  - clear -Hcells. induction Hcells as [|r l Hr Hl IH]; [done|].
    rewrite fmap_cons, delete_id by done. by f_equal.
Qed.
End eras_saved.

(** X6, run on [eras_frame]. *)
Lemma build_table7_frame_as_read_run :
  @build_table7_frame plain_host eras_frame = Ok eras_frame ∧
  columns eras_frame = filter (λ c, c ∉ ["era_numeric"]) (columns eras_frame) ∧
  rows eras_frame = delete "era_numeric" <$> rows eras_frame.
Proof.
  split; [reflexivity|].
  destruct (@build_table7_frame_as_read plain_host eras_frame eras_frame eq_refl)
    as (Hcols & Hrows & _).
  by split.
Defined.

(** ** Builders that stop *)

Section aborts.
Context `{!Host}.

Lemma table_job_aborts (input name : string) (rule : DataFrame → result DataFrame) :
  aborts_untouched (table_job input rule name) input rule.
Proof.
  intros w. unfold table_job, read_csv, lift, mbind, io_bind.
  destruct (files w !! (RAW ++ [input])) as [text|]; [|done].
  destruct (csv_parse text) as [df|e]; [|done].
  by destruct (rule df).
Qed.

(** X7. A builder whose raw file is missing raises [FileNotFoundError]; one
    whose file is not a table, or whose transform raises, raises that
    exception; in each case no file is written and nothing is printed. *)
Theorem table_builds_abort_untouched :
  aborts_untouched build_table1 "table1_model_performance.csv" build_table1_frame ∧
  aborts_untouched build_table2 "table2_hardware_speeds.csv" build_table2_frame ∧
  aborts_untouched build_table3 "table3_datasets.csv" build_table3_frame ∧
  aborts_untouched build_table4 "table4_challenges.csv" Ok ∧
  aborts_untouched build_table5 "table5_future_research.csv" Ok ∧
  aborts_untouched build_table6 "table6_implementation_phases.csv" Ok ∧
  aborts_untouched build_table7 "table7_evolution_technologies.csv" build_table7_frame.
Proof.
  destruct build_table_shapes as (-> & -> & -> & -> & -> & -> & ->).
  split_and!; apply table_job_aborts.
Qed.
End aborts.

(** X7, run: no raw file at all; and a raw table 1 without an accuracy
    column. *)
Lemma table_builds_abort_untouched_run :
  @build_table4 plain_host (world_with [] []) =
    (world_with [] [],
     Raise (FileNotFoundError "/repo/data/raw/table4_challenges.csv")) ∧
  (let w := world_with [(raw_file "table1_model_performance.csv",
                         plain_csv_render eras_frame)] [] in
   @build_table1 plain_host w = (w, Raise (KeyError "Accuracy (%)"))).
Proof.
  destruct (@table_builds_abort_untouched plain_host) as (H1 & _ & _ & H4 & _).
  split.
  - exact (H4 (world_with [] [])).
  - exact (H1 (world_with [(raw_file "table1_model_performance.csv",
                            plain_csv_render eras_frame)] [])).
Defined.

(** ** The files a builder writes *)

Section footprints.
Context `{!Host}.

Lemma lookup_write_all_outside (names : list string) (ws : list (string * string))
    (fs : gmap Path string) (p : Path) :
  Forall (λ nt, nt.1 ∈ names) ws →
  (∀ n, n ∈ names → p ≠ OUT ++ [n]) →
  write_all ws fs !! p = fs !! p.
Proof.
  intros Hws Hp. revert fs. induction Hws as [|[n text] ws Hn Hws IH]; intros fs.
  - done.
  - simpl. rewrite IH. apply lookup_insert_ne. intros Heq. by eapply Hp.
Qed.

Lemma write_all_keeps_files (ws : list (string * string)) (fs : gmap Path string)
    (p : Path) :
  is_Some (fs !! p) → is_Some (write_all ws fs !! p).
Proof.
  intros Hp. rewrite lookup_write_all. by destruct (write_all ws ∅ !! p).
Qed.

Lemma tidy_in_save_table (df : DataFrame) (name : string) :
  tidy_in (outputs_of name) (save_table df name).
Proof.
  intros w1 w2 [Hden Hfiles]. rewrite !save_table_run, <- Hden.
  assert (name +:+ ".csv" ∈ outputs_of name) as Hcsv by (by left).
  assert (name +:+ ".tex" ∈ outputs_of name) as Htex by (right; by left).
  case_bool_decide.
  { exists [], (Raise (OSError ("Permission denied: " +:+
                                path_str (OUT ++ [name +:+ ".csv"])))),
      (stdout w1), (stdout w2).
    split; [constructor|]. simpl. by rewrite Hden at 2; rewrite <- !world_eta. }
  case_bool_decide.
  { eexists [(name +:+ ".csv", csv_render df)], (Ok ()), _, _.
    split; [by repeat constructor|done]. }
  destruct (latex_render df) as [tex|e].
  - eexists [(name +:+ ".csv", csv_render df); (name +:+ ".tex", "");
             (name +:+ ".tex", tex)], (Ok ()), _, _.
    split; [by repeat constructor|done].
  - eexists [(name +:+ ".csv", csv_render df); (name +:+ ".tex", "")],
      (Ok ()), _, _.
    split; [by repeat constructor|done].
Qed.

Lemma tidy_in_table_job (input name : string) (rule : DataFrame → result DataFrame) :
  tidy_in (outputs_of name) (table_job input rule name).
Proof.
  intros w1 w2 Hsame. pose proof Hsame as [Hden Hfiles].
  unfold table_job, read_csv, lift, mbind, io_bind. rewrite <- (Hfiles input).
  destruct (files w1 !! (RAW ++ [input])) as [text|].
  - destruct (csv_parse text) as [df|e].
    + destruct (rule df) as [out|e].
      * by apply tidy_in_save_table.
      * exists [], (Raise e), (stdout w1), (stdout w2).
        split; [constructor|]. simpl. by rewrite <- !world_eta.
    + exists [], (Raise e), (stdout w1), (stdout w2).
      split; [constructor|]. simpl. by rewrite <- !world_eta.
  - exists [], (Raise (FileNotFoundError (path_str (RAW ++ [input])))),
      (stdout w1), (stdout w2).
    split; [constructor|]. simpl. by rewrite <- !world_eta.
Qed.

Lemma same_inputs_refl (w : World) : same_inputs w w.
Proof. by split. Qed.

Lemma tidy_in_run (names : list string) (m : io unit) (w : World) :
  tidy_in names m →
  ∃ ws, Forall (λ nt, nt.1 ∈ names) ws ∧
        files (m w).1 = write_all ws (files w) ∧ denied (m w).1 = denied w.
Proof.
  intros Hm. destruct (Hm w w (same_inputs_refl w)) as (ws & r & o1 & _ & Hws & Hrun & _).
  exists ws. by rewrite Hrun.
Qed.

Lemma tidy_in_touches_only (name : string) (m : io unit) :
  tidy_in (outputs_of name) m → touches_only m name.
Proof.
  intros Hm w. destruct (tidy_in_run _ _ w Hm) as (ws & Hws & -> & ->).
  split; [done|]. intros p Hcsv Htex.
  eapply lookup_write_all_outside; [done|].
  intros n [->|[->|[]%elem_of_nil]%elem_of_cons]%elem_of_cons; done.
Qed.

Lemma tidy_in_same_inputs (names : list string) (m : io unit) (w : World) :
  tidy_in names m → same_inputs w (m w).1.
Proof.
  intros Hm. destruct (tidy_in_run _ _ w Hm) as (ws & _ & Hfiles & Hden).
  split; [done|]. intros f. by rewrite Hfiles, lookup_write_all_raw.
Qed.

Lemma tidy_in_independent (names1 names2 : list string) (m1 m2 : io unit) :
  tidy_in names1 m1 → tidy_in names2 m2 →
  (∀ n, n ∈ names1 → n ∉ names2) →
  independent m1 m2.
Proof.
  intros H1 H2 Hdisj w.
  destruct (H1 w (m2 w).1) as (ws1 & r1 & o1 & o1' & Hws1 & Hrun1 & Hrun1').
  { by eapply tidy_in_same_inputs. }
  destruct (H2 w (m1 w).1) as (ws2 & r2 & o2 & o2' & Hws2 & Hrun2 & Hrun2').
  { by eapply tidy_in_same_inputs. }
  rewrite Hrun1', Hrun2'. simpl. rewrite Hrun1, Hrun2. simpl.
  split; [|done]. apply map_eq. intros p.
  destruct (decide (p ∈ (λ n, OUT ++ [n]) <$> names1)) as [Hp|Hp].
  - apply list_elem_of_fmap in Hp as (n & -> & Hn).
    assert (∀ fs, write_all ws2 fs !! (OUT ++ [n]) = fs !! (OUT ++ [n])) as Hout2.
    { intros fs. apply (lookup_write_all_outside names2); [done|].
      intros n' Hn' [= <-]%app_inv_head. by eapply Hdisj. }
    by rewrite Hout2, lookup_write_all, (lookup_write_all ws1 (write_all ws2 _)), Hout2.
  - assert (∀ fs, write_all ws1 fs !! p = fs !! p) as Hout1.
    { intros fs. apply (lookup_write_all_outside names1); [done|].
      intros n Hn ->. apply Hp, list_elem_of_fmap. eauto. }
    by rewrite Hout1, lookup_write_all, Hout1, (lookup_write_all ws2 (files w)).
Qed.
End footprints.

Section builders.
Context `{!Host}.

Lemma builders_tidy_in :
  Forall2 (λ m name, tidy_in (outputs_of name) m) table_builders table_names.
Proof.
  unfold table_builders, table_names.
  destruct build_table_shapes as (-> & -> & -> & -> & -> & -> & ->).
  repeat constructor; apply tidy_in_table_job.
Qed.

(** X8. A builder changes no write permission and no file but the CSV and
    the LaTeX file of its own table. *)
Theorem table_builds_touch_own_files :
  touches_only build_table1 "table1_model_performance" ∧
  touches_only build_table2 "table2_hardware_speeds" ∧
  touches_only build_table3 "table3_datasets" ∧
  touches_only build_table4 "table4_challenges" ∧
  touches_only build_table5 "table5_future_research" ∧
  touches_only build_table6 "table6_implementation_phases" ∧
  touches_only build_table7 "table7_evolution_technologies".
Proof.
  destruct build_table_shapes as (-> & -> & -> & -> & -> & -> & ->).
  split_and!; apply tidy_in_touches_only, tidy_in_table_job.
Qed.

Lemma table_names_apart (i j : nat) (n1 n2 : string) :
  i ≠ j → table_names !! i = Some n1 → table_names !! j = Some n2 →
  ∀ n, n ∈ outputs_of n1 → n ∉ outputs_of n2.
Proof.
  intros Hij H1 H2.
  assert (Forall (λ n, n ∉ outputs_of n2) (outputs_of n1)) as Hall;
    [|by rewrite Forall_forall in Hall].
  pose proof (lookup_lt_Some _ _ _ H1) as Hi.
  pose proof (lookup_lt_Some _ _ _ H2) as Hj.
  unfold table_names in *. simpl in Hi, Hj.
  destruct i as [|[|[|[|[|[|[|?]]]]]]]; try lia;
  destruct j as [|[|[|[|[|[|[|?]]]]]]]; try lia;
  injection H1 as <-; injection H2 as <-;
  repeat constructor; eapply bool_decide_eq_false_1; reflexivity.
Qed.

(** X9. Two different builders do not interfere: run one after the other,
    in either order, they leave the same files, and each ends as it does
    when run alone. *)
Theorem table_builds_independent (i j : nat) (m1 m2 : io unit) :
  i ≠ j → table_builders !! i = Some m1 → table_builders !! j = Some m2 →
  independent m1 m2.
Proof.
  intros Hij H1 H2.
  destruct (Forall2_lookup_l _ _ _ _ _ builders_tidy_in H1) as (n1 & Hn1 & Ht1).
  destruct (Forall2_lookup_l _ _ _ _ _ builders_tidy_in H2) as (n2 & Hn2 & Ht2).
  eapply tidy_in_independent; [done..|]. by eapply table_names_apart.
Qed.
End builders.

(** X8, run: [build_table3] on [raw_world] leaves the raw table 3 and the
    permissions as they were. *)
Lemma table_builds_touch_own_files_run :
  denied (@build_table3 plain_host raw_world).1 = denied raw_world ∧
  files (@build_table3 plain_host raw_world).1 !! raw_file "table3_datasets.csv" =
  files raw_world !! raw_file "table3_datasets.csv".
Proof.
  destruct (@table_builds_touch_own_files plain_host) as (_ & _ & H3 & _).
  destruct (H3 raw_world) as [Hden Hfiles]. split; [exact Hden|].
  apply Hfiles; discriminate.
Defined.

(** X9, run: tables 1 and 7 on [raw_world], in both orders. *)
Lemma table_builds_independent_run :
  files (@build_table7 plain_host (@build_table1 plain_host raw_world).1).1 =
  files (@build_table1 plain_host (@build_table7 plain_host raw_world).1).1.
Proof.
  apply (@table_builds_independent plain_host 0 6); [lia|reflexivity..].
Defined.

(** ** The whole script *)

Section script.
Context `{!Host}.

Lemma io_seq_Ok (m1 m2 : io unit) (w w' : World) :
  (m1;; m2) w = (w', Ok ()) → ∃ w1, m1 w = (w1, Ok ()) ∧ m2 w1 = (w', Ok ()).
Proof.
  unfold mbind, io_bind. destruct (m1 w) as [w1 [[]|e]]; [|done]. eauto.
Qed.

Lemma touches_only_run (m : io unit) (name : string) (w w' : World)
    (r : result unit) (p : Path) :
  touches_only m name → m w = (w', r) →
  p ≠ OUT ++ [name +:+ ".csv"] → p ≠ OUT ++ [name +:+ ".tex"] →
  files w' !! p = files w !! p.
Proof. intros Hm Hrun ??. destruct (Hm w) as [_ Hfiles]. rewrite Hrun in Hfiles. auto. Qed.

Lemma tidy_same_inputs (m : io unit) (w w' : World) (r : result unit) :
  tidy m → m w = (w', r) → same_inputs w w'.
Proof.
  intros Hm Hrun. destruct (Hm w w (same_inputs_refl w)) as (ws & r' & o & _ & Hrun' & _).
  rewrite Hrun in Hrun'. injection Hrun' as -> _. apply same_inputs_write_all.
Qed.

Lemma holds_table_job (w0 w w' : World) (input name : string)
    (rule : DataFrame → result DataFrame) :
  same_inputs w0 w → table_job input rule name w = (w', Ok ()) →
  holds_table w0 w' input name rule.
Proof.
  intros [_ Hin] (text & df & out & Htext & Hdf & Hout & Hsave)%table_job_Ok.
  exists text, df, out. rewrite Hin. split_and!; try done.
  by eapply save_table_Ok.
Qed.

Lemma holds_table_kept (w0 w w' : World) (input name : string)
    (rule : DataFrame → result DataFrame) :
  files w' !! (OUT ++ [name +:+ ".csv"]) = files w !! (OUT ++ [name +:+ ".csv"]) →
  holds_table w0 w input name rule → holds_table w0 w' input name rule.
Proof.
  intros Heq (text & df & out & ? & ? & ? & ?).
  exists text, df, out. by rewrite Heq.
Qed.

(** X10. When the script runs to the end, each of the seven CSV files holds
    the frame that its builder's transform makes of the table that was in
    the raw file when the script started. *)
Theorem main_writes_all_tables (w w' : World) :
  main w = (w', Ok ()) →
  holds_table w w' "table1_model_performance.csv" "table1_model_performance"
    build_table1_frame ∧
  holds_table w w' "table2_hardware_speeds.csv" "table2_hardware_speeds"
    build_table2_frame ∧
  holds_table w w' "table3_datasets.csv" "table3_datasets" build_table3_frame ∧
  holds_table w w' "table4_challenges.csv" "table4_challenges" Ok ∧
  holds_table w w' "table5_future_research.csv" "table5_future_research" Ok ∧
  holds_table w w' "table6_implementation_phases.csv"
    "table6_implementation_phases" Ok ∧
  holds_table w w' "table7_evolution_technologies.csv"
    "table7_evolution_technologies" build_table7_frame.
Proof.
  unfold main.
  intros (w1 & H1 & (w2 & H2 & (w3 & H3 & (w4 & H4 & (w5 & H5 &
    (w6 & H6 & H7)%io_seq_Ok)%io_seq_Ok)%io_seq_Ok)%io_seq_Ok)%io_seq_Ok)%io_seq_Ok.
  destruct tidy_builds as (T1 & T2 & T3 & T4 & T5 & T6 & T7).
  pose proof (same_inputs_refl w) as S0.
  pose proof (same_inputs_trans _ _ _ S0 (tidy_same_inputs _ _ _ _ T1 H1)) as S1.
  pose proof (same_inputs_trans _ _ _ S1 (tidy_same_inputs _ _ _ _ T2 H2)) as S2.
  pose proof (same_inputs_trans _ _ _ S2 (tidy_same_inputs _ _ _ _ T3 H3)) as S3.
  pose proof (same_inputs_trans _ _ _ S3 (tidy_same_inputs _ _ _ _ T4 H4)) as S4.
  pose proof (same_inputs_trans _ _ _ S4 (tidy_same_inputs _ _ _ _ T5 H5)) as S5.
  pose proof (same_inputs_trans _ _ _ S5 (tidy_same_inputs _ _ _ _ T6 H6)) as S6.
  destruct build_table_shapes as (E1 & E2 & E3 & E4 & E5 & E6 & E7).
  rewrite E1 in H1. rewrite E2 in H2. rewrite E3 in H3. rewrite E4 in H4.
  rewrite E5 in H5. rewrite E6 in H6. rewrite E7 in H7.
  pose proof (tidy_in_touches_only _ _ (tidy_in_table_job
    "table2_hardware_speeds.csv" "table2_hardware_speeds" build_table2_frame)) as O2.
  pose proof (tidy_in_touches_only _ _ (tidy_in_table_job
    "table3_datasets.csv" "table3_datasets" build_table3_frame)) as O3.
  pose proof (tidy_in_touches_only _ _ (tidy_in_table_job
    "table4_challenges.csv" "table4_challenges" Ok)) as O4.
  pose proof (tidy_in_touches_only _ _ (tidy_in_table_job
    "table5_future_research.csv" "table5_future_research" Ok)) as O5.
  pose proof (tidy_in_touches_only _ _ (tidy_in_table_job
    "table6_implementation_phases.csv" "table6_implementation_phases" Ok)) as O6.
  pose proof (tidy_in_touches_only _ _ (tidy_in_table_job
    "table7_evolution_technologies.csv" "table7_evolution_technologies"
    build_table7_frame)) as O7.
  assert (∀ a b : string, a ≠ b → OUT ++ [a] ≠ OUT ++ [b]) as Hne.
  { intros a b Hab [= ?]%app_inv_head. done. }
  split_and!.
  - eapply holds_table_kept;
      [|exact (holds_table_job _ _ _ _ _ _ S0 H1)].
    rewrite (touches_only_run _ _ _ _ _ _ O7 H7), (touches_only_run _ _ _ _ _ _ O6 H6),
      (touches_only_run _ _ _ _ _ _ O5 H5), (touches_only_run _ _ _ _ _ _ O4 H4),
      (touches_only_run _ _ _ _ _ _ O3 H3), (touches_only_run _ _ _ _ _ _ O2 H2)
      by (by apply Hne).
    done.
  - eapply holds_table_kept;
      [|exact (holds_table_job _ _ _ _ _ _ S1 H2)].
    rewrite (touches_only_run _ _ _ _ _ _ O7 H7), (touches_only_run _ _ _ _ _ _ O6 H6),
      (touches_only_run _ _ _ _ _ _ O5 H5), (touches_only_run _ _ _ _ _ _ O4 H4),
      (touches_only_run _ _ _ _ _ _ O3 H3) by (by apply Hne).
    done.
  - eapply holds_table_kept;
      [|exact (holds_table_job _ _ _ _ _ _ S2 H3)].
    rewrite (touches_only_run _ _ _ _ _ _ O7 H7), (touches_only_run _ _ _ _ _ _ O6 H6),
      (touches_only_run _ _ _ _ _ _ O5 H5), (touches_only_run _ _ _ _ _ _ O4 H4)
      by (by apply Hne).
    done.
  - eapply holds_table_kept;
      [|exact (holds_table_job _ _ _ _ _ _ S3 H4)].
    rewrite (touches_only_run _ _ _ _ _ _ O7 H7), (touches_only_run _ _ _ _ _ _ O6 H6),
      (touches_only_run _ _ _ _ _ _ O5 H5) by (by apply Hne).
    done.
  - eapply holds_table_kept;
      [|exact (holds_table_job _ _ _ _ _ _ S4 H5)].
    rewrite (touches_only_run _ _ _ _ _ _ O7 H7), (touches_only_run _ _ _ _ _ _ O6 H6)
      by (by apply Hne).
    done.
  - eapply holds_table_kept;
      [|exact (holds_table_job _ _ _ _ _ _ S5 H6)].
    rewrite (touches_only_run _ _ _ _ _ _ O7 H7) by (by apply Hne).
    done.
  - exact (holds_table_job _ _ _ _ _ _ S6 H7).
Qed.
End script.

(** X10, run on [raw_world]: the script ends normally and table 3 is
    there. *)
Lemma main_writes_all_tables_run :
  (@main plain_host raw_world).2 = Ok () ∧
  @holds_table plain_host raw_world (@main plain_host raw_world).1
    "table3_datasets.csv" "table3_datasets" build_table3_frame.
Proof.
  split; [vm_compute; reflexivity|].
  apply (@main_writes_all_tables plain_host raw_world (@main plain_host raw_world).1).
  vm_compute. reflexivity.
Defined.

Section confinement.
Context `{!Host}.

Lemma lookup_write_all_elsewhere (ws : list (string * string)) (fs : gmap Path string)
    (p : Path) :
  (∀ n, p ≠ OUT ++ [n]) → write_all ws fs !! p = fs !! p.
Proof.
  intros Hp. revert fs. induction ws as [|[n text] ws IH]; intros fs; simpl; [done|].
  rewrite IH. apply lookup_insert_ne. intros Heq. by eapply Hp.
Qed.

Lemma tidy_confined (m : io unit) : tidy m → confined m.
Proof.
  intros Hm w.
  destruct (Hm w w (same_inputs_refl w)) as (ws & r & o & _ & Hrun & _).
  rewrite Hrun. simpl. split_and!; [done| |].
  - intros p Hp. by apply lookup_write_all_elsewhere.
  - intros p. apply write_all_keeps_files.
Qed.

(** X11. The script, like each of its builders, changes no write
    permission, changes no file that is not directly in the output
    directory (so no raw file), and removes no file. *)
Theorem script_confined :
  confined main ∧ Forall confined table_builders.
Proof.
  destruct tidy_builds as (T1 & T2 & T3 & T4 & T5 & T6 & T7).
  split; [apply tidy_confined, tidy_main|].
  unfold table_builders. repeat constructor; by apply tidy_confined.
Qed.
End confinement.
